(** * The migration router of tg_bot: a shallow embedding and its properties

    Source: [tg_bot/etc/database/migrations/router.py] (classes [BaseRouter],
    [Router], [ModuleRouter]) and the tests under
    [tests/etc/database/migrations/].

    Conventions of the embedding.
    - A Python [str] is a [string]; a character is its code point, below 256.
    - The file system is a finite map from directory paths to directories, a
      directory a finite map from file names to the script a file holds.
      A name given to the router holds no path separator. A script file
      holds the scope that [exec] of its text leaves: the text of a script is
      code that compiles and executes, and what [Router.read] does with a
      text that is not (lines 258-259 raise) is outside the embedding.
    - The ledger (table [MigrateHistory]) is the list of the names of its rows
      in increasing [id] order; [model.create] appends, [delete] filters.
    - Router methods are state transformers that may raise; they are entered
      on a connection without an open transaction, so that a statement outside
      [database.transaction()] is committed at once. *)

From Stdlib Require Import Strings.String Strings.Ascii DecimalString.
From Stdlib Require OrderedTypeEx DecimalNat.
From stdpp Require Import gmap strings list fin_maps sorting.

Open Scope string_scope.

(** ** Python strings *)

Definition chr (n : nat) : ascii := ascii_of_nat n.
Definition ord (c : ascii) : nat := nat_of_ascii c.

(** ["x" * 1]: the one-character string. *)
Definition str1 (c : ascii) : string := String c EmptyString.

(** [s[:-n]] for a positive [n]. *)
Definition drop_last (n : nat) (s : string) : string :=
  String.substring 0 (String.length s - n) s.

(** [str.isspace] on one character with a code point below 256. *)
Definition isspace (c : ascii) : bool :=
  let n := ord c in
  (((9 <=? n) && (n <=? 13)) || ((28 <=? n) && (n <=? 32))
   || (n =? 133) || (n =? 160))%nat.

Fixpoint lstrip (s : string) : string :=
  match s with
  | String c s' => if isspace c then lstrip s' else s
  | EmptyString => EmptyString
  end.

Fixpoint rstrip (s : string) : string :=
  match s with
  | String c s' =>
      match rstrip s' with
      | EmptyString => if isspace c then EmptyString else str1 c
      | t => String c t
      end
  | EmptyString => EmptyString
  end.

(** [s.strip()] *)
Definition strip (s : string) : string := rstrip (lstrip s).

(** [s.endswith(t)] *)
Definition endswith (s t : string) : bool :=
  bool_decide (String.substring (String.length s - String.length t)
                 (String.length t) s = t)
  && (String.length t <=? String.length s)%nat.

(** Comparison of two [str] by code points, as [sorted] uses it. *)
Definition str_le (a b : string) : Prop := String.leb a b = true.

#[global] Instance str_le_dec : RelDecision str_le :=
  fun a b => bool_eq_dec (String.leb a b) true.

(** [sorted(names)] *)
Definition sorted (l : list string) : list string := merge_sort str_le l.

(** ** Regular expressions, as far as [filemask] needs them *)

Inductive atom :=
| One (cls : ascii -> bool)          (* one character of a class *)
| Exactly (n : nat) (cls : ascii -> bool)   (* cls{n} *)
| OneOrMore (cls : ascii -> bool)    (* cls+ *)
| EndAnchor.                         (* $ without re.M *)

Fixpoint exactly (n : nat) (cls : ascii -> bool) (k : string -> bool)
  (s : string) : bool :=
  match n with
  | 0 => k s
  | S n' =>
      match s with
      | String c s' => cls c && exactly n' cls k s'
      | EmptyString => false
      end
  end.

Fixpoint one_or_more (cls : ascii -> bool) (k : string -> bool)
  (s : string) : bool :=
  match s with
  | String c s' => cls c && (k s' || one_or_more cls k s')
  | EmptyString => false
  end.

(** [$] holds at the end of the string and just before a newline that ends
    the string. *)
Definition at_end (s : string) : bool :=
  bool_decide (s = EmptyString) || bool_decide (s = str1 (chr 10)).

(** [re.match]: the pattern matches a prefix of the string. *)
Fixpoint re_match (p : list atom) : string -> bool :=
  match p with
  | [] => fun _ => true
  | a :: p' =>
      let k := re_match p' in
      match a with
      | One cls => exactly 1 cls k
      | Exactly n cls => exactly n cls k
      | OneOrMore cls => one_or_more cls k
      | EndAnchor => fun s => at_end s && k s
      end
  end.

Definition is_digit (c : ascii) : bool :=
  ((48 <=? ord c) && (ord c <=? 57))%nat.
Definition is_char (x c : ascii) : bool := bool_decide (c = x).
Definition not_char (x c : ascii) : bool := negb (is_char x c).

(** [filemask = re.compile(r"[\d]{3}_[^\.]+\.py$")] *)
Definition filemask : list atom :=
  [ Exactly 3 is_digit; One (is_char "_"); OneOrMore (not_char ".");
    One (is_char "."); One (is_char "p"); One (is_char "y"); EndAnchor ].

(** ['{:03}'.format(n)] for a natural number *)
Definition format_03 (n : nat) : string :=
  let digits := NilZero.string_of_uint (Nat.to_uint n) in
  String.concat EmptyString (replicate (3 - String.length digits) "0") ++ digits.


(** [needle in hay] *)
Fixpoint contains (needle hay : string) : bool :=
  String.prefix needle hay
  || match hay with
     | String _ hay' => contains needle hay'
     | EmptyString => false
     end.

(** [l[i]], where a negative index counts from the end; [None] is
    [IndexError]. *)
Definition py_index {A} (l : list A) (i : Z) : option A :=
  if bool_decide (0 <= i)%Z then l !! Z.to_nat i
  else if bool_decide (- Z.of_nat (length l) <= i)%Z
       then l !! Z.to_nat (Z.of_nat (length l) + i)
       else None.

(** ** The shape of the names that [filemask] accepts *)

(** Every character of the string is in the class. *)
Fixpoint all_chars (cls : ascii -> bool) (s : string) : bool :=
  match s with
  | String c s' => cls c && all_chars cls s'
  | EmptyString => true
  end.

(** Three digits, an underscore, a stem without a dot that is not empty, and
    [.py], at the end of the name or before a newline that ends it. *)
Definition script_file_shape (f : string) : Prop :=
  exists d1 d2 d3 stem tail,
    f = String d1 (String d2 (String d3 ("_" ++ stem ++ ".py" ++ tail))) /\
    is_digit d1 = true /\ is_digit d2 = true /\ is_digit d3 = true /\
    stem <> EmptyString /\ all_chars (not_char ".") stem = true /\
    (tail = EmptyString \/ tail = str1 (chr 10)).

(** The string is made of three digits. *)
Definition three_digits (s : string) : bool :=
  match s with
  | String a (String b (String c EmptyString)) =>
      is_digit a && is_digit b && is_digit c
  | _ => false
  end.

(** ** Table names ([tg_bot/etc/database/model.py]) *)

(** [c.isupper()] on one character with a code point below 256: the capital
    letters of ASCII and of Latin-1. *)
Definition isupper (c : ascii) : bool :=
  let n := ord c in
  (((65 <=? n) && (n <=? 90)) || ((192 <=? n) && (n <=? 214))
   || ((216 <=? n) && (n <=? 222)))%nat.

(** [c.lower()] on such a character. *)
Definition lower_char (c : ascii) : ascii :=
  if isupper c then chr (ord c + 32) else c.

(** [s.lower()] *)
Fixpoint lower (s : string) : string :=
  match s with
  | String c s' => String (lower_char c) (lower s')
  | EmptyString => EmptyString
  end.

(** [[i for i, e in enumerate(s, start) if e.isupper()]] *)
Fixpoint upper_positions (start : nat) (s : string) : list nat :=
  match s with
  | String e s' =>
      if isupper e then start :: upper_positions (S start) s'
      else upper_positions (S start) s'
  | EmptyString => []
  end.

(** [s[i:j]] for [i <= j] *)
Definition slice (s : string) (i j : nat) : string :=
  String.substring i (j - i) s.

(** [make_table_name(model)], on the name of the model class. *)
Definition make_table_name (model_name : string) : string :=
  let pos := upper_positions 0 (model_name ++ "A") in
  let parts :=
    map (fun j => lower (slice model_name (nth j pos 0) (nth (j + 1) pos 0)))
      (seq 0 (length pos - 1)) in
  String.concat "_" parts.

(** The characters of a string before its first capital. *)
Fixpoint before_capital (s : string) : string :=
  match s with
  | String c s' => if isupper c then EmptyString else String c (before_capital s')
  | EmptyString => EmptyString
  end.

(** The words of a name in camel case: every capital starts a word, which
    goes on to the next capital; what stands before the first capital is in
    no word. *)
Fixpoint words (s : string) : list string :=
  match s with
  | String c s' =>
      if isupper c then String c (before_capital s') :: words s'
      else words s'
  | EmptyString => []
  end.

(** The function over the pairs of neighbours of a list. *)
Fixpoint neighbours {A B} (f : A -> A -> B) (l : list A) : list B :=
  match l with
  | a :: (b :: _) as l' => f a b :: neighbours f l'
  | _ => []
  end.

(** ** Validated text fields ([tg_bot/etc/database/fields.py]) *)

(** What [TextField.db_value] does with a value: it returns it, or raises
    [ValidationError(value)]. *)
Inductive db_result (V : Type) :=
| Stored (value : V)
| ValidationError (value : V).
Arguments Stored {V} value.
Arguments ValidationError {V} value.

(** [TextField.run_validators]: a validator is what it answers on a value,
    as [if validator(value):] reads it; [None] is the [None] that Python
    returns when the loop has nothing to run. The [return] stands in the
    body of the loop. *)
Definition run_validators {V : Type} (validators : list (V -> bool))
  (value : V) : option bool :=
  match validators with
  | validator :: _ =>
      let response := if validator value then true else false in
      Some response
  | [] => None
  end.

(** [TextField.db_value] *)
Definition db_value {V : Type} (validators : list (V -> bool)) (value : V)
  : db_result V :=
  match run_validators validators value with
  | Some false => ValidationError value
  | _ => Stored value
  end.
(** ** Exceptions, log records, statements *)

Inductive exn :=
| TypeError (msg : string)
| RuntimeError (msg : string)
| FileNotFoundError (dir file : string)
| AttributeError (name : string)
| NotImplementedError
| MigratorError                      (* a Migrator method refused its call *)
| DatabaseError (query : string)     (* the database refused a statement *)
| ScriptError (what : string).       (* raised by the body of a script *)

Inductive result (A : Type) :=
| Ok (a : A)
| Raised (e : exn).
Arguments Ok {A} a.
Arguments Raised {A} e.

Inductive level := INFO | WARNING | ERROR | EXCEPTION.

(** What reaches the database and changes it. *)
Inductive statement :=
| Query (q : string)                 (* DDL of a Migrator, SQL of a script *)
| LedgerInsert (name : string)       (* model.create(name=name) *)
| LedgerDelete (name : string)       (* model.delete().where(name == ...) *)
| LedgerClear.                       (* model.delete() *)

(** ** The state monad of the router *)

Definition M (St A : Type) : Type := St -> result A * St.

Definition ret {St A} (a : A) : M St A := fun st => (Ok a, st).
Definition raise {St A} (e : exn) : M St A := fun st => (Raised e, st).
Definition bind {St A B} (c : M St A) (k : A -> M St B) : M St B :=
  fun st =>
    match c st with
    | (Ok a, st') => k a st'
    | (Raised e, st') => (Raised e, st')
    end.

(** [try: body except Exception: handler] *)
Definition try_except {St A} (body : M St A) (handler : exn -> M St A)
  : M St A :=
  fun st =>
    match body st with
    | (Ok a, st') => (Ok a, st')
    | (Raised e, st') => handler e st'
    end.

Declare Scope router_scope.
Delimit Scope router_scope with router.
Notation "'let*' x ':=' c 'in' k" := (bind c (fun x => k))
  (at level 10, x pattern, c at level 100, k at level 200)
  : router_scope.
Notation "c '>>' k" := (bind c (fun _ => k))
  (at level 100, k at level 200, right associativity) : router_scope.
Open Scope router_scope.

(** ** Migration scripts *)

(** What the body of a procedure of a script does, in order; [Op] is a call
    of a Migrator method with its arguments. *)
Inductive action (Op : Type) :=
| Call (o : Op)               (* migrator.<method>(...) *)
| Execute (q : string)        (* SQL through peewee, at once *)
| Raise (e : exn).
Arguments Call {Op} o.
Arguments Execute {Op} q.
Arguments Raise {Op} e.

(** A procedure of a script: whether its signature accepts the keyword
    [fake], and its body, which is given the value of [fake]. *)
Record procedure (Op : Type) := {
  pname : string;
  accepts_fake : bool;
  body : bool -> list (action Op);
}.
Arguments pname {Op} p.
Arguments accepts_fake {Op} p.
Arguments body {Op} p fake.

(** The scope that [exec] of a script leaves (file-based), or the attributes
    of a migration module (module-based). *)
Record script (Op : Type) := {
  scope_migrate : option (procedure Op);
  scope_rollback : option (procedure Op);
}.
Arguments scope_migrate {Op} s.
Arguments scope_rollback {Op} s.

(** [VOID = lambda m, d: None] *)
Definition VOID {Op : Type} : procedure Op :=
  {| pname := "<lambda>"; accepts_fake := false; body := fun _ => [] |}.

(** ** What the router is given

    The Migrator ([migrations/migrator.py]), the diff engine
    ([migrations/auto.py]), the template ([template.txt]) and the database
    driver are not part of the sources at hand; the router is embedded over
    an arbitrary choice of them. *)

Class Collaborators := {
  (** a call of a Migrator method with its arguments *)
  Op : Type;
  (** [Migrator.orm] *)
  Registry : Type;
  (** a model class, as [orm.values()] lists them *)
  Model : Type;
  (** what the database holds besides the ledger *)
  Schema : Type;
  (** the registry of [Migrator(database)] *)
  empty_orm : Registry;
  orm_values : Registry -> list Model;
  (** the registry after a call, [None] when the method raises *)
  apply_op : Op -> Registry -> option Registry;
  (** the statements the call enqueues *)
  ddl_of : Op -> list string;
  (** [Database.execute_sql], [None] when the database raises *)
  execute_sql : string -> Schema -> option Schema;
  (** [auto.diff_many(models, source, migrator, reverse=reverse)] *)
  diff_many : list Model -> list Model -> Registry -> bool -> list string;
  (** lines 316-317 of the router: the changes laid out as one text *)
  layout : list string -> string;
  (** [MIGRATE_TEMPLATE.format(migrate=, rollback=, name=)], as the scope
      that the text leaves once it is written, read back and executed. The
      texts [migrate] and [rollback] are taken to be code that compiles and
      executes, as [compile_migrations] lays it out: for a text that is not,
      [Router.read] raises and there is no such scope, so nothing is said
      here of reading back a script that was written from arbitrary text. *)
  MIGRATE_TEMPLATE : string -> string -> string -> script Op;
  (** the directory of the migrations the package ships *)
  package_migrations : string;
}.

Section Router.
Context `{Collaborators}.

(** ** State *)

(** Modelled from the spec: the Migrator of [migrations/migrator.py], which is
    not among the sources. Section 4.4: a registry and a queue of pending
    operations; each call mutates the in-memory registry immediately and
    enqueues the corresponding DDL; [run()] executes all enqueued DDL in
    enqueue order, then clears the queue; [clean()] discards the queue
    without executing. *)
Record Migrator := {
  orm : Registry;
  ops : list string;
}.

Record db := {
  ledger : list string;
  schema : Schema;
}.

Record state := {
  fs : gmap string (gmap string (script Op));
  database : db;
  sent : list statement;
  log : list (level * string);
  (** [BaseRouter.migrator], a [cached_property]: the object once built *)
  cache : option Migrator;
}.

Definition set_fs (f : gmap string (gmap string (script Op))) (s : state) :=
  {| fs := f; database := database s; sent := sent s; log := log s;
     cache := cache s |}.
Definition set_database (d : db) (s : state) :=
  {| fs := fs s; database := d; sent := sent s; log := log s;
     cache := cache s |}.
Definition set_sent (l : list statement) (s : state) :=
  {| fs := fs s; database := database s; sent := l; log := log s;
     cache := cache s |}.
Definition set_log (l : list (level * string)) (s : state) :=
  {| fs := fs s; database := database s; sent := sent s; log := l;
     cache := cache s |}.
Definition set_cache (c : option Migrator) (s : state) :=
  {| fs := fs s; database := database s; sent := sent s; log := log s;
     cache := c |}.

(** The two router classes; [BaseRouter] is what they share. *)
Inductive router :=
| Router (migrate_dir : string)
| ModuleRouter (migrate_module : gmap string (script Op)).

(** A method of the router that works on a Migrator it was handed. *)
Definition MR (A : Type) : Type := M (Migrator * state) A.

Definition world {A} (c : M state A) : MR A :=
  fun '(m, s) => let '(r, s') := c s in (r, (m, s')).

(** [self.logger.<level>(msg)] *)
Definition logger (l : level) (msg : string) : M state unit :=
  fun s => (Ok tt, set_log (log s ++ [(l, msg)]) s).

(** [self.model.create(name=name)] *)
Definition model_create (name : string) : M state unit :=
  fun s =>
    let d := database s in
    (Ok tt, set_sent (sent s ++ [LedgerInsert name])
              (set_database {| ledger := ledger d ++ [name];
                               schema := schema d |} s)).

(** [self.model.delete().where(self.model.name == name).execute()] *)
Definition model_delete_where (name : string) : M state unit :=
  fun s =>
    let d := database s in
    (Ok tt, set_sent (sent s ++ [LedgerDelete name])
              (set_database {| ledger := filter (fun n => n <> name) (ledger d);
                               schema := schema d |} s)).

(** [self.model.delete().execute()] *)
Definition model_delete : M state unit :=
  fun s =>
    let d := database s in
    (Ok tt, set_sent (sent s ++ [LedgerClear])
              (set_database {| ledger := []; schema := schema d |} s)).

(** A statement sent to the database for real. *)
Definition send (q : string) : M state unit :=
  fun s =>
    let d := database s in
    let s1 := set_sent (sent s ++ [Query q]) s in
    match execute_sql q (schema d) with
    | Some sc => (Ok tt, set_database {| ledger := ledger d; schema := sc |} s1)
    | None => (Raised (DatabaseError q), s1)
    end.

(** [self.database.rollback()] on a connection whose transaction, if there
    was one, has already ended: nothing is left to undo. *)
Definition database_rollback : M state unit := ret tt.

(** [with self.database.transaction(): body]: committed on a normal exit,
    rolled back when the body raises. *)
Definition transaction {A} (body : MR A) : MR A :=
  fun '(m, s) =>
    match body (m, s) with
    | (Ok a, st') => (Ok a, st')
    | (Raised e, (m', s')) => (Raised e, (m', set_database (database s) s'))
    end.

(** ** The Migrator *)

(** [Migrator(self.database)] *)
Definition new_migrator : Migrator := {| orm := empty_orm; ops := [] |}.

(** One call of a Migrator method: the registry changes at once, the DDL is
    enqueued. *)
Definition migrator_call (o : Op) : MR unit :=
  fun '(m, s) =>
    match apply_op o (orm m) with
    | Some r => (Ok tt, ({| orm := r; ops := ops m ++ ddl_of o |}, s))
    | None => (Raised MigratorError, (m, s))
    end.

Fixpoint send_all (qs : list string) : M state unit :=
  match qs with
  | [] => ret tt
  | q :: qs' => send q >> send_all qs'
  end.

(** [migrator.clean()] *)
Definition migrator_clean : MR unit :=
  fun '(m, s) => (Ok tt, ({| orm := orm m; ops := [] |}, s)).

(** [migrator.run()] *)
Definition migrator_run : MR unit :=
  let* queue := (fun '(m, s) => (Ok (ops m), (m, s))) in
  world (send_all queue) >> migrator_clean.

(** ** Calling a procedure of a script *)

(** The body of a procedure. [stub] tells that [peewee.Model.select] and
    [peewee.Database.execute_sql] are patched by mocks, as [run_one] does
    around a fake call: a statement then goes nowhere. *)
Fixpoint run_actions (stub : bool) (acts : list (action Op)) : MR unit :=
  match acts with
  | [] => ret tt
  | Call o :: acts' => migrator_call o >> run_actions stub acts'
  | Execute q :: acts' =>
      (if stub then ret tt else world (send q)) >> run_actions stub acts'
  | Raise e :: _ => raise e
  end.

(** [p(migrator, self.database, fake=fake)] *)
Definition call (p : procedure Op) (fake stub : bool) : MR unit :=
  if accepts_fake p then run_actions stub (body p fake)
  else raise (TypeError
                (pname p ++ "() got an unexpected keyword argument 'fake'")).

(** ** File system *)

(** [os.path.exists(dir)] *)
Definition path_exists (dir : string) : M state bool :=
  fun s => (Ok (bool_decide (is_Some (fs s !! dir))), s).

(** [os.makedirs(dir)] *)
Definition makedirs (dir : string) : M state unit :=
  fun s => (Ok tt, set_fs (<[dir := ∅]> (fs s)) s).

(** [os.listdir(dir)] *)
Definition listdir (dir : string) : M state (list string) :=
  fun s =>
    match fs s !! dir with
    | Some d => (Ok (map fst (map_to_list d)), s)
    | None => (Raised (FileNotFoundError dir EmptyString), s)
    end.

(** [open(os.path.join(dir, file))], read and executed *)
Definition open_script (dir file : string) : M state (script Op) :=
  fun s =>
    match fs s !! dir ≫= (fun d => d !! file) with
    | Some sc => (Ok sc, s)
    | None => (Raised (FileNotFoundError dir file), s)
    end.

(** [open(os.path.join(dir, file), 'w')], written *)
Definition write_script (dir file : string) (sc : script Op)
  : M state unit :=
  fun s =>
    match fs s !! dir with
    | Some d => (Ok tt, set_fs (<[dir := <[file := sc]> d]> (fs s)) s)
    | None => (Raised (FileNotFoundError dir file), s)
    end.

(** [os.remove(os.path.join(dir, file))] *)
Definition os_remove (dir file : string) : M state unit :=
  fun s =>
    match fs s !! dir with
    | Some d =>
        if bool_decide (is_Some (d !! file))
        then (Ok tt, set_fs (<[dir := delete file d]> (fs s)) s)
        else (Raised (FileNotFoundError dir file), s)
    | None => (Raised (FileNotFoundError dir file), s)
    end.

(** ** [BaseRouter], [Router], [ModuleRouter] *)

Definition dquote : string := str1 (chr 34).

(** [todo]: [NotImplementedError] in [BaseRouter], the scan of the directory
    in [Router]. *)
Definition todo (r : router) : M state (list string) :=
  match r with
  | Router migrate_dir =>
      let* there := path_exists migrate_dir in
      (if there then ret tt
       else logger WARNING ("Migration directory: " ++ migrate_dir
                            ++ " does not exist.") >>
            makedirs migrate_dir) >>
      let* names := listdir migrate_dir in
      ret (sorted (map (drop_last 3)
                     (filter (fun f => re_match filemask f = true) names)))
  | ModuleRouter _ => raise NotImplementedError
  end.

(** [done]: the names of the ledger, ordered by [id]. *)
Definition done : M state (list string) :=
  fun s => (Ok (ledger (database s)), s).

(** [diff] *)
Definition diff (r : router) : M state (list string) :=
  let* done_names := done in
  let done : gset string := list_to_set done_names in
  let* todo := todo r in
  ret (filter (fun name => name ∉ done) todo).

(** [read] *)
Definition read (r : router) (name : string)
  : M state (procedure Op * procedure Op) :=
  match r with
  | Router migrate_dir =>
      let migration_file := name ++ ".py" in
      let dir := if negb (endswith name "tg_bot") then migrate_dir
                 else package_migrations in
      let* scope := open_script dir migration_file in
      ret (default VOID (scope_migrate scope),
           default VOID (scope_rollback scope))
  | ModuleRouter migrate_module =>
      match migrate_module !! name with
      | Some md => ret (default VOID (scope_migrate md),
                        default VOID (scope_rollback md))
      | None => raise (AttributeError name)
      end
  end.

(** The [try] block of [run_one]. In fake mode Python returns the migrator
    it was given, which the caller already holds. *)
Definition run_one_try (r : router) (name : string)
  (fake downgrade force : bool) : MR unit :=
  let* procedures := world (read r name) in
  let '(migrate, rollback) := procedures in
  if fake then
    call migrate fake true >>
    (if force then
       world (model_create name) >>
       world (logger INFO ("Done " ++ name))
     else ret tt) >>
    migrator_clean
  else
    transaction
      ((if negb downgrade then
          world (logger INFO ("Migrate " ++ dquote ++ name ++ dquote)) >>
          call migrate fake false >>
          migrator_run >>
          world (model_create name)
        else
          world (logger INFO ("Rolling back " ++ name)) >>
          call rollback fake false >>
          migrator_run >>
          world (model_delete_where name)) >>
       world (logger INFO ("Done " ++ name))).

(** The [except Exception] block of [run_one]. *)
Definition run_one_except (name : string) (downgrade : bool) (e : exn)
  : MR unit :=
  world database_rollback >>
  let operation := if negb downgrade then "Migration" else "Rollback" in
  world (logger EXCEPTION (operation ++ " failed: " ++ name)) >>
  raise e.

(** [run_one(name, migrator, fake=True, downgrade=False, force=False)]: run
    or emulate the migration with the given name. *)
Definition run_one (r : router) (name : string)
  (fake downgrade force : bool) : MR unit :=
  try_except (run_one_try r name fake downgrade force)
    (run_one_except name downgrade).

(** A method applied to the object that [self.migrator] gave: the object is
    mutated in place, so the cache sees what the method did to it, also when
    the method raises. *)
Definition on_object {A} (m : Migrator) (c : MR A) : M state A :=
  fun s => let '(r, (m', s')) := c (m, s) in (r, set_cache (Some m') s').

(** A method applied to a Migrator that the caller drops afterwards. *)
Definition on_local {A} (m : Migrator) (c : MR A) : M state A :=
  fun s => let '(r, (_, s')) := c (m, s) in (r, s').

(** [for name in names: self.run_one(name, migrator)] *)
Fixpoint replay (r : router) (names : list string) : MR unit :=
  match names with
  | [] => ret tt
  | name :: names' => run_one r name true false false >> replay r names'
  end.

(** [migrator], a [cached_property]: built on the first access by the fake
    replay of [done], the same object afterwards. *)
Definition migrator (r : router) : M state Migrator :=
  fun s =>
    match cache s with
    | Some m => (Ok m, s)
    | None =>
        match (let* names := world done in replay r names) (new_migrator, s) with
        | (Ok _, (m, s')) => (Ok m, set_cache (Some m) s')
        | (Raised e, (_, s')) => (Raised e, s')
        end
    end.

(** [if name and name == mname] *)
Definition is_target (name : option string) (mname : string) : bool :=
  match name with
  | Some n => negb (bool_decide (n = EmptyString)) && bool_decide (n = mname)
  | None => false
  end.

(** The loop of [run] over [diff]. *)
Fixpoint run_loop (r : router) (name : option string) (fake : bool)
  (diff : list string) (done : list string) : MR (list string) :=
  match diff with
  | [] => ret done
  | mname :: diff' =>
      run_one r mname fake false fake >>
      let done := (done ++ [mname])%list in
      if is_target name mname then ret done
      else run_loop r name fake diff' done
  end.

(** [run(name=None, fake=False)] *)
Definition run (r : router) (name : option string) (fake : bool)
  : M state (list string) :=
  logger INFO "Starting migrations" >>
  let done := [] in
  let* diff := diff r in
  if bool_decide (diff = []) then
    logger INFO "There is nothing to migrate" >> ret done
  else
    let* migrator := migrator r in
    on_object migrator (run_loop r name fake diff done).

(** [rollback(name)] *)
Definition rollback (r : router) (name : string) : M state unit :=
  let name := strip name in
  let* done := done in
  if bool_decide (done = []) then
    raise (RuntimeError "No migrations are found.")
  else if bool_decide (Some name <> last done) then
    raise (RuntimeError "Only last migration can be canceled.")
  else
    let* migrator := migrator r in
    on_object migrator (run_one r name false true false) >>
    logger WARNING ("Downgraded migration: " ++ name).

Fixpoint remove_scripts (dir : string) (names : list string) : M state unit :=
  match names with
  | [] => ret tt
  | name :: names' =>
      os_remove dir (name ++ ".py") >> remove_scripts dir names'
  end.

(** [clear]: the ledger in [BaseRouter], the ledger and then the files in
    [Router]. *)
Definition clear (r : router) : M state unit :=
  match r with
  | Router migrate_dir =>
      model_delete >>
      let* names := todo r in
      remove_scripts migrate_dir names
  | ModuleRouter _ => model_delete
  end.

(** [compile(name, migrate, rollback, num)] *)
Definition compile (r : router) (name migrate rollback : string)
  (num : option nat) : M state string :=
  match r with
  | Router migrate_dir =>
      let* num := match num with
                  | None => let* t := todo r in ret (length t)
                  | Some n => ret n
                  end in
      let name := format_03 (num + 1) ++ "_" ++ name in
      let filename := name ++ ".py" in
      write_script migrate_dir filename
        (MIGRATE_TEMPLATE migrate rollback filename) >>
      ret name
  | ModuleRouter _ => raise NotImplementedError
  end.

(** [compile_migrations(migrator, models, reverse=False)]; [None] is the
    [False] that the function returns when nothing differs. *)
Definition compile_migrations (migrator : Migrator) (models : list Model)
  (reverse : bool) : option string :=
  let source := orm_values (orm migrator) in
  let '(source, models) :=
    if reverse then (models, source) else (source, models) in
  let migrations := diff_many models source (orm migrator) reverse in
  if bool_decide (migrations = []) then None
  else Some (layout migrations).

(** How [str.format] prints what [compile_migrations] returned. *)
Definition format_code (c : option string) : string := default "False" c.

(** [merge(name='initial')] *)
Definition merge (r : router) (name : string) : M state unit :=
  let fresh := new_migrator in
  let* cached := migrator r in
  match compile_migrations fresh (orm_values (orm cached)) false with
  | None => logger ERROR "Can't merge migrations"
  | Some migrate =>
      clear r >>
      logger INFO ("Merge migrations into " ++ dquote ++ name ++ dquote) >>
      let* cached := migrator r in
      let rollback := compile_migrations cached [] false in
      let* name := compile r name migrate (format_code rollback) (Some 0) in
      let fresh := new_migrator in
      on_local fresh (run_one r name true false true) >>
      logger INFO ("Migrations has been merged into "
                   ++ dquote ++ name ++ dquote)
  end.

(** ** Notions that the properties are stated with *)

(** The names that [os.listdir] gives for a directory of the state, none
    when the directory is missing. *)
Definition listing (dir : string) (s : state) : list string :=
  match fs s !! dir with
  | Some d => map fst (map_to_list d)
  | None => []
  end.

(** The names of the migration scripts of a directory: what matches
    [filemask], without its last three characters. *)
Definition script_names (dir : string) (s : state) : list string :=
  map (drop_last 3)
    (filter (fun f => re_match filemask f = true) (listing dir s)).

(** The registry that the calls of a body leave, [None] when the body
    raises. *)
Fixpoint registry_after (acts : list (action Op)) (reg : Registry)
  : option Registry :=
  match acts with
  | [] => Some reg
  | Call o :: acts' =>
      match apply_op o reg with
      | Some reg' => registry_after acts' reg'
      | None => None
      end
  | Execute _ :: acts' => registry_after acts' reg
  | Raise _ :: _ => None
  end.

(** The entries of [diff] that [run] applies when none fails: all of them,
    or those up to the target. *)
Fixpoint up_to_target (name : option string) (diff : list string)
  : list string :=
  match diff with
  | [] => []
  | mname :: diff' =>
      mname :: (if is_target name mname then [] else up_to_target name diff')
  end.

(** What [run] would be if it replayed [done] on a new Migrator at each
    call, as Section 4.5 of the specification words it. *)
Definition run_replaying (r : router) (name : option string) (fake : bool)
  : M state (list string) :=
  logger INFO "Starting migrations" >>
  let* diff := diff r in
  if bool_decide (diff = []) then
    logger INFO "There is nothing to migrate" >> ret []
  else
    on_local new_migrator
      (let* names := world done in
       replay r names >>
       run_loop r name fake diff []).

(** Every script of the directory is named by its name and [.py]: no file
    name that matches [filemask] ends with a newline. *)
Definition plain_names (dir : string) (s : state) : Prop :=
  forall f, f ∈ listing dir s -> re_match filemask f = true ->
            drop_last 3 f ++ ".py" = f.

(** The files of a directory of the state, none when it is missing. *)
Definition directory (dir : string) (s : state) : gmap string (script Op) :=
  default ∅ (fs s !! dir).

(** The name that [merge] gives the migration it writes. *)
Definition merged_name (name : string) : string := "001_" ++ name.

(** The script that [merge] writes for the registry of a Migrator. *)
Definition merged_script (name migrate : string) (cached : Migrator)
  : script Op :=
  MIGRATE_TEMPLATE migrate
    (format_code (compile_migrations cached [] false))
    (merged_name name ++ ".py").

(** ** Notions that the proofs are stated with *)

(** Two states that differ at most in the schema and in the statements
    sent. *)
Definition same_outside_schema (s s' : state) : Prop :=
  fs s' = fs s /\ log s' = log s /\ cache s' = cache s /\
  ledger (database s') = ledger (database s).

(** The record that [run_one] logs when it fails. *)
Definition failure_record (name : string) (downgrade : bool)
  : level * string :=
  (EXCEPTION,
   (if negb downgrade then "Migration" else "Rollback") ++ " failed: " ++ name).

(** What the forced ledger write of a fake run adds to a list. *)
Definition when_forced {A} (force : bool) (x : A) : list A :=
  if force then [x] else [].

(** Two states that differ at most in the log. *)
Definition same_but_log (s s' : state) : Prop :=
  fs s' = fs s /\ database s' = database s /\ sent s' = sent s /\
  cache s' = cache s.

(** The directory after the removal of the scripts of a list of names. *)
Definition without_scripts (names : list string)
  (d : gmap string (script Op)) : gmap string (script Op) :=
  foldl (fun d n => delete (n ++ ".py") d) d names.

(** The exception of Python when [VOID] is called with [fake=...]. *)
Definition VOID_TypeError : exn :=
  TypeError "<lambda>() got an unexpected keyword argument 'fake'".

(** ** [create] *)

(** What [create] is given as [auto]. A module path or [True] makes it import
    the models; what the import finds is not the router's to decide, so it
    comes with the argument. *)
Inductive auto_arg :=
| NoAuto                          (* [auto=False] *)
| Models (models : list Model)    (* a list of model classes *)
| Import (what : string) (found : list Model + string).
    (* [True] or module paths, printed as [what]: the models that
       [load_models] finds, or the message of the [ImportError] *)

Section Create.

(** [m._meta.name] *)
Variable meta_name : Model -> string.
(** [self.ignore]: the names given to the constructor, none by default. *)
Variable ignore : list string.

(** [for migration in pending: self.run_one(migration, self.migrator,
    fake=True)] *)
Fixpoint emulate (r : router) (pending : list string) : M state unit :=
  match pending with
  | [] => ret tt
  | migration :: pending' =>
      let* migrator := migrator r in
      on_object migrator (run_one r migration true false false) >>
      emulate r pending'
  end.

(** The end of [create]: the script is written and its name returned. *)
Definition create_script (r : router) (name migrate rollback : string)
  : M state (option string) :=
  logger INFO ("Creating migration " ++ dquote ++ name ++ dquote) >>
  let* name := compile r name migrate rollback None in
  logger INFO ("Migration has been created as " ++ dquote ++ name ++ dquote) >>
  ret (Some name).

(** The branch [if auto:] of [create], from [if self.ignore:] on. *)
Definition create_auto (r : router) (name : string) (models : list Model)
  : M state (option string) :=
  let models :=
    if bool_decide (ignore = []) then models
    else filter (fun m => meta_name m ∉ ignore) models in
  let* pending := diff r in
  emulate r pending >>
  let* migrator1 := migrator r in
  match compile_migrations migrator1 models false with
  | None => logger WARNING "No changes found." >> ret None
  | Some migrate =>
      let* migrator2 := migrator r in
      let rollback := compile_migrations migrator2 models true in
      create_script r name migrate (format_code rollback)
  end.

(** [create(name='auto', auto=False)]; [None] is what the calls of the
    logger return. An empty list of models is false for [if auto:]. *)
Definition create (r : router) (name : string) (auto : auto_arg)
  : M state (option string) :=
  match auto with
  | NoAuto | Models [] => create_script r name EmptyString EmptyString
  | Models models => create_auto r name models
  | Import what (inl models) => create_auto r name models
  | Import what (inr msg) =>
      logger EXCEPTION msg >>
      logger ERROR ("Can't import models module: " ++ what) >>
      ret None
  end.

End Create.

(** ** More notions that the properties are stated with *)

(** The statements that a body sends by itself, in order. *)
Fixpoint queries_of (acts : list (action Op)) : list string :=
  match acts with
  | [] => []
  | Execute q :: acts' => q :: queries_of acts'
  | _ :: acts' => queries_of acts'
  end.

(** The statements that the calls of a body enqueue, in order. *)
Fixpoint enqueued_by (acts : list (action Op)) : list string :=
  match acts with
  | [] => []
  | Call o :: acts' => (ddl_of o ++ enqueued_by acts')%list
  | _ :: acts' => enqueued_by acts'
  end.

(** From one state to the other the schema is the same and no statement of a
    migration was sent. *)
Definition no_new_query (s s' : state) : Prop :=
  schema (database s') = schema (database s) /\
  forall q, Query q ∈ sent s' -> Query q ∈ sent s.

(** From one state to the other the database is the same and nothing was
    sent to it. *)
Definition same_database (s s' : state) : Prop :=
  database s' = database s /\ sent s' = sent s.

(** From one state to the other no file has appeared, gone or changed; a
    directory may have been made, empty. *)
Definition same_files (s s' : state) : Prop :=
  forall d, directory d s' = directory d s.

End Router.

Arguments state {_}.
Arguments Migrator {_}.
Arguments router {_}.
Arguments db {_}.

(** ** A small backend, for examples

    Tables are names; the registry is the list of the tables declared, the
    schema the list of the statements the database accepted. The database
    refuses the statement [FAIL]. *)

Inductive table_op :=
| create_table (t : string)
| drop_table (t : string)
| sql (q : string).

Definition table_apply (o : table_op) (reg : list string)
  : option (list string) :=
  match o with
  | create_table t =>
      if bool_decide (t ∈ reg) then None else Some (reg ++ [t])%list
  | drop_table t =>
      if bool_decide (t ∈ reg) then Some (filter (fun x => x <> t) reg)
      else None
  | sql _ => Some reg
  end.

Definition table_ddl (o : table_op) : list string :=
  match o with
  | create_table t => ["CREATE TABLE " ++ t]
  | drop_table t => ["DROP TABLE " ++ t]
  | sql q => [q]
  end.

Definition table_execute (q : string) (sc : list string)
  : option (list string) :=
  if bool_decide (q = "FAIL") then None else Some (sc ++ [q])%list.

(** A procedure with the signature [(migrator, database, fake=False)]. *)
Definition proc (name : string) (acts : list (action table_op))
  : procedure table_op :=
  {| pname := name; accepts_fake := true; body := fun _ => acts |}.

#[global] Instance tables : Collaborators := {|
  Op := table_op;
  Registry := list string;
  Model := string;
  Schema := list string;
  empty_orm := [];
  orm_values := fun reg => reg;
  apply_op := table_apply;
  ddl_of := table_ddl;
  execute_sql := table_execute;
  diff_many := fun models source _ _ =>
    app (map (fun t => "create " ++ t) (filter (fun t => t ∉ source) models))
        (map (fun t => "drop " ++ t) (filter (fun t => t ∉ models) source));
  layout := String.concat ";";
  MIGRATE_TEMPLATE := fun _ _ _ =>
    {| scope_migrate := Some (proc "migrate" []);
       scope_rollback := Some (proc "rollback" []) |};
  package_migrations := "tg_bot/migrations";
|}.

(** Two scripts: [001_a] creates and drops the table [a]; [002_b] needs the
    table [a] and has no [rollback]. *)
Definition script_001 : script table_op :=
  {| scope_migrate := Some (proc "migrate" [Call (create_table "a")]);
     scope_rollback := Some (proc "rollback" [Call (drop_table "a")]) |}.

Definition script_002 : script table_op :=
  {| scope_migrate :=
       Some (proc "migrate" [Call (drop_table "a"); Call (create_table "b")]);
     scope_rollback := None |}.

(** A script whose statement the database refuses after it took another. *)
Definition script_003 : script table_op :=
  {| scope_migrate :=
       Some (proc "migrate" [Call (create_table "c"); Call (sql "FAIL")]);
     scope_rollback := Some (proc "rollback" [Execute "FAIL"]) |}.

Definition migrations : gmap string (script table_op) :=
  <["001_a.py" := script_001]> (<["002_b.py" := script_002]> ∅).

Definition the_router : router := Router "migrations".

Definition state_of (files : gmap string (script table_op))
  (names : list string) (c : option Migrator) : state :=
  {| fs := <["migrations" := files]> ∅;
     database := {| ledger := names; schema := [] |};
     sent := []; log := []; cache := c |}.

(** Nothing applied, no Migrator built yet. *)
Definition state0 : state := state_of migrations [] None.

(** [001_a] applied, no Migrator built yet. *)
Definition state1 : state := state_of migrations ["001_a"] None.

(** [001_a] applied, by someone else, after the router built its Migrator on
    an empty ledger. *)
Definition state_stale : state :=
  state_of migrations ["001_a"] (Some new_migrator).

(** More states of the example. *)

Definition migrations3 : gmap string (script table_op) :=
  <["003_c.py" := script_003]> migrations.

(** Nothing applied, three scripts. *)
Definition state3 : state := state_of migrations3 [] None.

(** Both scripts applied, no Migrator built yet. *)
Definition state2 : state := state_of migrations ["001_a"; "002_b"] None.

(** The same migrations as members of a module. *)
Definition the_module_router : router :=
  ModuleRouter (<["001_a" := script_001]> (<["002_b" := script_002]> ∅)).

(** A Migrator with a statement left in its queue. *)
Definition busy_migrator : Migrator := {| orm := []; ops := ["PENDING"] |}.

(** ** The diff of one table, as far as the sources tell

    [auto.diff_one] is not among the sources, and neither are the migrations
    of the test directory, which make the model [Person_] that the test
    compares: no call of [diff_one] can be embedded with its result.
    [tests/.../test_auto.py] calls it and fixes part of what it returns. A
    change is the text of the call of a Migrator method, as the test compares
    it. *)

(** Lines 39-45 of [test_auto.py]: what the test asserts on
    [changes = diff_one(Person, Person_, migrator=migrator)]. *)
Definition test_auto_asserts (changes : list string) : Prop :=
  length changes = 6 /\
  (exists first,
     py_index changes 0 = Some first /\
     contains "on_delete='CASCADE'" first = true /\
     contains "backref='persons'" first = true) /\
  py_index changes (-3)
    = Some "migrator.drop_not_null('person', 'last_name')" /\
  py_index changes (-2)
    = Some "migrator.drop_index('person', 'last_name')" /\
  py_index changes (-1)
    = Some "migrator.add_index('person', 'last_name', unique=True)".

(** The kinds of operation that the ordering contract names. *)
Inductive op_class :=
| DropIndex | DropNotNull | TypeOrRename | AddNotNull | DefaultChange
| AddIndex.

(** The kind of a change, by the Migrator method that it calls; [None] for
    the calls that the contract does not name (columns added or dropped). *)
Definition class_of (change : string) : option op_class :=
  if String.prefix "migrator.drop_index(" change then Some DropIndex
  else if String.prefix "migrator.drop_not_null(" change then Some DropNotNull
  else if String.prefix "migrator.change_fields(" change
          || String.prefix "migrator.change_columns(" change
          || String.prefix "migrator.rename_field(" change
       then Some TypeOrRename
  else if String.prefix "migrator.add_not_null(" change then Some AddNotNull
  else if String.prefix "migrator.add_default(" change
          || String.prefix "migrator.drop_default(" change
       then Some DefaultChange
  else if String.prefix "migrator.add_index(" change then Some AddIndex
  else None.

(** Modelled from the spec: the emission order of [auto.diff_one], which is
    not among the sources. Section 4.2, step 3: within one table's diff, the
    fixed emission order is drop-index, drop-not-null (if dropping),
    type/rename changes, add-not-null (if adding), default changes,
    add-index. *)
Definition contract_rank (k : op_class) : nat :=
  match k with
  | DropIndex => 0
  | DropNotNull => 1
  | TypeOrRename => 2
  | AddNotNull => 3
  | DefaultChange => 4
  | AddIndex => 5
  end.

(** A list of changes is in the order of the contract. *)
Definition follows_contract (changes : list string) : Prop :=
  StronglySorted le (map contract_rank (omap class_of changes)).

(** ** More states of the example *)

(** A directory of 999 scripts, [001_s.py] to [999_s.py]. *)
Definition many_scripts : gmap string (script table_op) :=
  list_to_map
    (map (fun k => (format_03 k ++ "_s.py", script_001)) (seq 1 999)).

Definition state_many : state := state_of many_scripts [] None.

(** A directory with a script whose name ends in [tg_bot]; the package has
    no directory of migrations. *)
Definition state_tg_bot : state :=
  state_of (<["001_x_tg_bot.py" := script_001]> ∅) [] None.

(** [001_a] applied, and beside its script a file whose name ends in a
    newline after [.py]; [filemask] matches that name too. *)
Definition state_newline : state :=
  state_of (<["010_z.py" ++ str1 (chr 10) := script_002]>
              (<["001_a.py" := script_001]> ∅))
           ["001_a"] None.

(** The name of a model of the example is the name of its table. *)
Definition table_name (m : @Model tables) : string := m.

(** * Properties *)

(** ** The string functions on the inputs of the tests *)

Example filemask_ok : re_match filemask "001_test.py" = true.
Proof. reflexivity. Qed.
Example filemask_pyc : re_match filemask "001_test.pyc" = false.
Proof. reflexivity. Qed.
Example filemask_dots : re_match filemask "001_a.b.py" = false.
Proof. reflexivity. Qed.
Example filemask_four : re_match filemask "0001_test.py" = false.
Proof. reflexivity. Qed.
Example filemask_newline :
  re_match filemask ("001_test.py" ++ str1 (chr 10)) = true.
Proof. reflexivity. Qed.
Example strip_ex : strip "  004_x  " = "004_x".
Proof. reflexivity. Qed.
Example endswith_ex : endswith "001_tg_bot" "tg_bot" = true.
Proof. reflexivity. Qed.
Example endswith_short : endswith "bot" "tg_bot" = false.
Proof. reflexivity. Qed.
Example format_03_1 : format_03 1 = "001".
Proof. reflexivity. Qed.
Example format_03_1000 : format_03 1000 = "1000".
Proof. reflexivity. Qed.

(** ** [filemask] *)

(** [cls+] followed by [k]: some characters of the class, at least one, and
    then a rest that [k] accepts. *)
Lemma one_or_more_spec (cls : ascii -> bool) (k : string -> bool) (s : string) :
  one_or_more cls k s = true <->
  exists stem rest,
    s = stem ++ rest /\ stem <> EmptyString /\
    all_chars cls stem = true /\ k rest = true.
Proof.
  induction s as [|c s IH]; simpl.
  - split; [discriminate |].
    intros (stem & rest & Heq & Hne & _). destruct stem; [congruence |].
    discriminate.
  - rewrite andb_true_iff, orb_true_iff, IH. split.
    + intros [Hc [Hk | (stem & rest & -> & Hne & Hall & Hk)]].
      * exists (str1 c), s. unfold str1. simpl. rewrite Hc.
        repeat split; [discriminate | exact Hk].
      * exists (String c stem), rest. simpl. rewrite Hc, Hall.
        repeat split; [discriminate | exact Hk].
    + intros (stem & rest & Heq & Hne & Hall & Hk).
      destruct stem as [|c' stem]; [congruence |].
      simpl in Heq, Hall. injection Heq as <- ->.
      apply andb_true_iff in Hall as [Hc Hall]. split; [exact Hc |].
      destruct stem as [|c'' stem].
      * left. exact Hk.
      * right. exists (String c'' stem), rest.
        repeat split; [discriminate | exact Hall | exact Hk].
Qed.

(** What follows the stem: [.py] and the end. *)
Lemma suffix_spec (rest : string) :
  re_match [One (is_char "."); One (is_char "p"); One (is_char "y");
            EndAnchor] rest = true <->
  exists tail, rest = ".py" ++ tail /\
               (tail = EmptyString \/ tail = str1 (chr 10)).
Proof.
  unfold re_match, exactly, is_char, at_end. split.
  - destruct rest as [|a [|b [|c tail]]]; try discriminate;
      try (rewrite ?andb_false_r; discriminate).
    rewrite !andb_true_iff, orb_true_iff, !bool_decide_eq_true.
    intros (-> & -> & -> & Hend & _). exists tail. split; [reflexivity |].
    exact Hend.
  - intros (tail & -> & [-> | ->]); vm_compute; reflexivity.
Qed.

Lemma re_match_filemask_shape (f : string) :
  re_match filemask f = true <-> script_file_shape f.
Proof.
  unfold script_file_shape.
  change (re_match filemask f) with
    (exactly 3 is_digit
       (exactly 1 (is_char "_")
          (one_or_more (not_char ".")
             (re_match [One (is_char "."); One (is_char "p");
                        One (is_char "y"); EndAnchor]))) f).
  split.
  - destruct f as [|d1 [|d2 [|d3 [|u f]]]]; simpl;
      try discriminate; try (rewrite ?andb_false_r; discriminate).
    rewrite !andb_true_iff. intros (H1 & H2 & H3 & Hu & Hrest).
    unfold is_char in Hu. apply bool_decide_eq_true in Hu. subst u.
    apply one_or_more_spec in Hrest
      as (stem & rest & -> & Hne & Hall & Hrest).
    apply suffix_spec in Hrest as (tail & -> & Htail).
    exists d1, d2, d3, stem, tail. repeat split; assumption.
  - intros (d1 & d2 & d3 & stem & tail & -> & H1 & H2 & H3 & Hne & Hall & Ht).
    simpl. rewrite H1, H2, H3. simpl.
    apply one_or_more_spec. exists stem, (".py" ++ tail).
    repeat split; try assumption.
    apply suffix_spec. exists tail. split; [reflexivity | exact Ht].
Qed.

(** X2. The names that [filemask] matches are the names of the shape
    [ddd_<stem>.py], where the stem is not empty and has no dot, with at most
    one newline after [.py]: so [001_a.py] and [001_a.py] followed by a
    newline are scripts, and [001_a.pyc], [0001_a.py], [001_.py] and
    [001_a.b.py] are not. *)
Theorem filemask_matches_the_script_names (f : string) :
  (re_match filemask f = true <-> script_file_shape f) /\
  re_match filemask "001_a.py" = true /\
  re_match filemask ("001_a.py" ++ str1 (chr 10)) = true /\
  re_match filemask "001_a.pyc" = false /\
  re_match filemask "0001_a.py" = false /\
  re_match filemask "001_.py" = false /\
  re_match filemask "001_a.b.py" = false.
Proof.
  split; [apply re_match_filemask_shape |].
  vm_compute. repeat split.
Qed.

(** ** The number of a script *)

(** Below a thousand ['{:03}'.format] gives three digits. *)
Lemma format_03_three_digits (n : nat) :
  n < 1000 -> three_digits (format_03 n) = true.
Proof.
  intros Hn.
  assert (Hall : forallb (fun k => three_digits (format_03 k)) (seq 0 1000)
                 = true) by (vm_compute; reflexivity).
  rewrite forallb_forall in Hall. apply Hall. apply in_seq. lia.
Qed.

Lemma length_append (a b : string) :
  String.length (a ++ b) = String.length a + String.length b.
Proof. induction a as [|c a IH]; simpl; [reflexivity | now rewrite IH]. Qed.

Lemma substring_prefix (a b : string) :
  String.substring 0 (String.length a) (a ++ b) = a.
Proof.
  induction a as [|c a IH]; simpl.
  - destruct b; reflexivity.
  - now rewrite IH.
Qed.

(** [(name + '.py')[:-3]] is the name. *)
Lemma drop_last_py (a : string) : drop_last 3 (a ++ ".py") = a.
Proof.
  unfold drop_last. rewrite length_append. simpl.
  replace (String.length a + 3 - 3) with (String.length a) by lia.
  apply substring_prefix.
Qed.

(** The file name that [compile] makes of a number below a thousand and of a
    name without a dot matches [filemask]. *)
Lemma compiled_name_matches (n : nat) (name : string) :
  n < 1000 -> name <> EmptyString -> all_chars (not_char ".") name = true ->
  re_match filemask ((format_03 n ++ "_" ++ name) ++ ".py") = true.
Proof.
  intros Hn Hne Hall. apply re_match_filemask_shape.
  pose proof (format_03_three_digits n Hn) as H3.
  destruct (format_03 n) as [|d1 [|d2 [|d3 [|]]]]; try discriminate H3.
  simpl in H3. apply andb_true_iff in H3 as [H12 H3].
  apply andb_true_iff in H12 as [H1 H2].
  exists d1, d2, d3, name, EmptyString. simpl.
  repeat split; try assumption. left. reflexivity.
Qed.

(** ** Numbers of four digits and more *)

Lemma of_uint_acc_bound (d : Decimal.uint) (acc : nat) :
  Nat.of_uint_acc d acc < (acc + 1) * 10 ^ DecimalNat.Unsigned.usize d.
Proof.
  revert acc. induction d as [|d IH|d IH|d IH|d IH|d IH|d IH|d IH|d IH|d IH|d IH];
    intros acc;
    cbn [Nat.of_uint_acc DecimalNat.Unsigned.usize];
    rewrite ?Nat.tail_mul_spec, ?Nat.pow_succ_r';
    [ simpl; lia | .. ];
    (eapply Nat.lt_le_trans; [apply IH |]);
    assert (Hpos : 0 < 10 ^ DecimalNat.Unsigned.usize d)
      by (apply Nat.neq_0_lt_0, Nat.pow_nonzero; discriminate);
    nia.
Qed.

(** The first character of the digits of a number. *)
Lemma digits_head (d : Decimal.uint) :
  d <> Decimal.Nil ->
  exists c d',
    NilEmpty.string_of_uint d = String c (NilEmpty.string_of_uint d') /\
    is_digit c = true /\
    DecimalNat.Unsigned.usize d = S (DecimalNat.Unsigned.usize d').
Proof.
  destruct d as [|d|d|d|d|d|d|d|d|d|d]; [congruence | ..]; intros _;
    eexists _, d; repeat split.
Qed.

Lemma usize_Nil (d : Decimal.uint) :
  DecimalNat.Unsigned.usize d <> 0 -> d <> Decimal.Nil.
Proof. intros Hsize ->. apply Hsize. reflexivity. Qed.

(** From a thousand on, the number has a fourth digit. *)
Lemma four_digits (n : nat) :
  1000 <= n ->
  exists c1 c2 c3 c4 rest,
    NilZero.string_of_uint (Nat.to_uint n)
      = String c1 (String c2 (String c3 (String c4 rest))) /\
    is_digit c4 = true.
Proof.
  intros Hn.
  pose proof (DecimalNat.Unsigned.of_to n) as Hof.
  pose proof (of_uint_acc_bound (Nat.to_uint n) 0) as Hb.
  fold (Nat.of_uint (Nat.to_uint n)) in Hb. rewrite Hof in Hb.
  set (d := Nat.to_uint n) in *.
  assert (Hsize : 4 <= DecimalNat.Unsigned.usize d).
  { destruct (DecimalNat.Unsigned.usize d) as [|[|[|[|k]]]];
      simpl in Hb; lia. }
  assert (Hd : d <> Decimal.Nil) by (apply usize_Nil; lia).
  assert (Hz : NilZero.string_of_uint d = NilEmpty.string_of_uint d)
    by (destruct d; [congruence | reflexivity ..]).
  rewrite Hz.
  destruct (digits_head d Hd) as (c1 & d1 & -> & _ & H1).
  destruct (digits_head d1 (usize_Nil d1 ltac:(lia)))
    as (c2 & d2 & -> & _ & H2).
  destruct (digits_head d2 (usize_Nil d2 ltac:(lia)))
    as (c3 & d3 & -> & _ & H3).
  destruct (digits_head d3 (usize_Nil d3 ltac:(lia)))
    as (c4 & d4 & -> & H4 & _).
  eexists _, _, _, _, _. split; [reflexivity | exact H4].
Qed.

(** A name whose fourth character is a digit does not match [filemask]. *)
Lemma fourth_digit_no_match (c1 c2 c3 c4 : ascii) (rest : string) :
  is_digit c4 = true ->
  re_match filemask (String c1 (String c2 (String c3 (String c4 rest))))
    = false.
Proof.
  intros H4.
  assert (Hc : is_char "_" c4 = false).
  { unfold is_char. apply bool_decide_eq_false. intros ->.
    vm_compute in H4. discriminate. }
  unfold filemask. cbn [re_match exactly]. rewrite Hc.
  rewrite !andb_false_r. reflexivity.
Qed.

(** From a thousand on, the file that [compile] would name does not match
    [filemask], whatever the name. *)
Lemma large_number_no_match (n : nat) (tail : string) :
  1000 <= n -> re_match filemask (format_03 n ++ tail) = false.
Proof.
  intros Hn. destruct (four_digits n Hn) as (c1 & c2 & c3 & c4 & rest & Hs & H4).
  unfold format_03. rewrite Hs.
  change (re_match filemask
            (String c1 (String c2 (String c3 (String c4 (rest ++ tail)))))
          = false).
  apply fourth_digit_no_match. exact H4.
Qed.

(** ** [make_table_name] *)

Lemma neighbours_cons {A B} (f : A -> A -> B) (a b : A) (l : list A) :
  neighbours f (a :: b :: l) = f a b :: neighbours f (b :: l).
Proof. reflexivity. Qed.

Lemma neighbours_nth {B} (f : nat -> nat -> B) (l : list nat) :
  map (fun j => f (nth j l 0) (nth (j + 1) l 0)) (seq 0 (length l - 1))
  = neighbours f l.
Proof.
  induction l as [|a [|b l] IH]; [reflexivity | reflexivity |].
  replace (length (a :: b :: l) - 1) with (S (length (b :: l) - 1))
    by (simpl; lia).
  rewrite neighbours_cons, <- IH, <- cons_seq. cbn [map]. f_equal.
  rewrite <- seq_shift, map_map. reflexivity.
Qed.

Lemma neighbours_map_S {B} (f : nat -> nat -> B) (l : list nat) :
  neighbours f (map S l) = neighbours (fun a b => f (S a) (S b)) l.
Proof.
  induction l as [|a [|b l] IH]; [reflexivity | reflexivity |].
  change (map S (a :: b :: l)) with (S a :: S b :: map S l).
  rewrite !neighbours_cons. f_equal. exact IH.
Qed.

Lemma neighbours_map {A B C} (g : B -> C) (f : A -> A -> B) (l : list A) :
  neighbours (fun a b => g (f a b)) l = map g (neighbours f l).
Proof.
  induction l as [|a [|b l] IH]; [reflexivity | reflexivity |].
  rewrite !neighbours_cons. cbn [map]. f_equal. exact IH.
Qed.

Lemma upper_positions_S (start : nat) (s : string) :
  upper_positions (S start) s = map S (upper_positions start s).
Proof.
  revert start. induction s as [|c s IH]; intros start; [reflexivity |].
  cbn [upper_positions]. destruct (isupper c); cbn [map]; rewrite IH;
    reflexivity.
Qed.

Lemma slice_S (c : ascii) (s : string) (a b : nat) :
  slice (String c s) (S a) (S b) = slice s a b.
Proof. reflexivity. Qed.

(** The first capital of [s ++ "A"] stands where the characters of [s]
    before its first capital end. *)
Lemma first_capital (s : string) :
  exists rest,
    upper_positions 0 (s ++ "A")
      = String.length (before_capital s) :: rest.
Proof.
  induction s as [|c s IH].
  - eexists. reflexivity.
  - change (String c s ++ "A") with (String c (s ++ "A")).
    cbn [upper_positions before_capital]. destruct (isupper c).
    + eexists. reflexivity.
    + destruct IH as [rest IH]. rewrite upper_positions_S, IH.
      eexists. reflexivity.
Qed.

Lemma substring_before_capital (s : string) :
  String.substring 0 (String.length (before_capital s)) s = before_capital s.
Proof.
  induction s as [|c s IH]; [reflexivity |].
  cbn [before_capital]. destruct (isupper c); [reflexivity |].
  cbn [String.length String.substring]. rewrite IH. reflexivity.
Qed.

(** The slices that [make_table_name] cuts are the words of the name. *)
Lemma slices_are_words (s : string) :
  neighbours (slice s) (upper_positions 0 (s ++ "A")) = words s.
Proof.
  induction s as [|c s IH]; [reflexivity |].
  change (String c s ++ "A") with (String c (s ++ "A")).
  cbn [upper_positions words]. rewrite upper_positions_S.
  destruct (isupper c).
  - destruct (first_capital s) as [rest Hfirst].
    rewrite <- IH. rewrite Hfirst. cbn [map].
    rewrite neighbours_cons. f_equal.
    + unfold slice. cbn [String.substring].
      rewrite Nat.sub_0_r. rewrite substring_before_capital. reflexivity.
    + change (S (String.length (before_capital s)) :: map S rest)
        with (map S (String.length (before_capital s) :: rest)).
      rewrite neighbours_map_S. reflexivity.
  - rewrite neighbours_map_S. exact IH.
Qed.

Lemma words_without_capital (s : string) :
  all_chars (fun c => negb (isupper c)) s = true -> words s = [].
Proof.
  induction s as [|c s IH]; [reflexivity |].
  cbn [all_chars words]. destruct (isupper c); [discriminate |].
  exact IH.
Qed.

(** X19. [make_table_name] joins with underscores the words of the name of the
    class, in lower case: every capital starts a word, and what stands
    before the first capital is dropped. So a name without a capital gives
    the empty table name, and capitals in a row give words of one letter. *)
Theorem make_table_name_joins_the_words (model_name : string) :
  make_table_name model_name
    = String.concat "_" (map lower (words model_name)) /\
  (all_chars (fun c => negb (isupper c)) model_name = true ->
   make_table_name model_name = EmptyString) /\
  make_table_name "CallbackDataFilter" = "callback_data_filter" /\
  make_table_name "usersTable" = "table" /\
  make_table_name "HTTPServer" = "h_t_t_p_server".
Proof.
  assert (Hwords : make_table_name model_name
                   = String.concat "_" (map lower (words model_name))).
  { unfold make_table_name. cbv zeta.
    rewrite (neighbours_nth (fun a b => lower (slice model_name a b))).
    rewrite <- slices_are_words.
    rewrite (neighbours_map lower (slice model_name)). reflexivity. }
  split; [exact Hwords |]. split.
  - intros Hnone. rewrite Hwords, (words_without_capital _ Hnone).
    reflexivity.
  - vm_compute. repeat split.
Qed.

(** ** [TextField.db_value] *)

(** X20. [db_value] raises [ValidationError] exactly when there is a validator
    and the first one refuses the value: the other validators are never
    asked, and a field without validators stores every value. *)
Theorem only_the_first_validator_is_asked {V : Type}
  (validators : list (V -> bool)) (value : V) :
  (db_value validators value = ValidationError value <->
   exists first others, validators = first :: others /\ first value = false) /\
  (db_value validators value = Stored value <->
   validators = [] \/
   exists first others, validators = first :: others /\ first value = true) /\
  (forall first others,
     db_value (first :: others) value = db_value [first] value).
Proof.
  unfold db_value, run_validators.
  destruct validators as [|first others].
  - split; [| split].
    + split; [discriminate |]. intros (? & ? & ? & _). discriminate.
    + split; [auto | reflexivity].
    + reflexivity.
  - destruct (first value) eqn:Hfirst; (split; [| split]).
    + split; [discriminate |].
      intros (f & o & Heq & Hf). injection Heq as <- <-. congruence.
    + split; [| reflexivity]. intros _. right. eauto.
    + reflexivity.
    + split; [| reflexivity]. intros _. eauto.
    + split; [discriminate |].
      intros [Hnil | (f & o & Heq & Hf)]; [discriminate |].
      injection Heq as <- <-. congruence.
    + reflexivity.
Qed.

(** ** The order of [sorted] *)

#[global] Instance str_le_total : Total str_le.
Proof. intros a b. apply String.leb_total. Qed.

Lemma str_le_cases (a b : string) :
  str_le a b <-> a = b \/ OrderedTypeEx.String_as_OT.lt a b.
Proof.
  unfold str_le, String.leb.
  pose proof (OrderedTypeEx.String_as_OT.cmp_eq a b) as Heq.
  pose proof (OrderedTypeEx.String_as_OT.cmp_lt a b) as Hlt.
  unfold OrderedTypeEx.String_as_OT.cmp in *.
  destruct (String.compare a b); split; intros Hc; try reflexivity.
  - left. now apply Heq.
  - right. now apply Hlt.
  - discriminate.
  - destruct Hc as [Hc | Hc].
    + apply Heq in Hc. discriminate.
    + apply Hlt in Hc. discriminate.
Qed.

#[global] Instance str_le_trans : Transitive str_le.
Proof.
  intros a b c Hab Hbc.
  apply str_le_cases in Hab, Hbc. apply str_le_cases.
  destruct Hab as [-> | Hab]; [exact Hbc |].
  destruct Hbc as [<- | Hbc]; [now right |].
  right. eapply OrderedTypeEx.String_as_OT.lt_trans; eassumption.
Qed.

#[global] Instance str_le_antisym : AntiSymm (=) str_le.
Proof.
  intros a b Hab Hba. apply String.leb_antisym; assumption.
Qed.

Lemma sorted_spec (l : list string) :
  StronglySorted str_le (sorted l) /\ sorted l ≡ₚ l.
Proof.
  split.
  - apply StronglySorted_merge_sort; apply _.
  - apply merge_sort_Permutation.
Qed.

Section RouterProperties.
Context `{Collaborators}.

(** [todo] of a file-based router always returns; it returns the sorted
    script names, and changes the state only when the directory is missing:
    it then logs a warning and creates the directory. *)
Lemma todo_Router (dir : string) (s : state) :
  todo (Router dir) s =
    (Ok (sorted (script_names dir s)),
     if bool_decide (is_Some (fs s !! dir)) then s
     else set_fs (<[dir := ∅]> (fs s))
            (set_log (log s ++ [(WARNING, "Migration directory: " ++ dir
                                           ++ " does not exist.")]) s)).
Proof.
  unfold todo, script_names, listing, bind, path_exists, logger, makedirs,
    listdir, ret.
  case_bool_decide as Hd; simpl.
  - destruct Hd as [d Hd']. rewrite Hd'. reflexivity.
  - rewrite lookup_insert_eq. rewrite map_to_list_empty.
    destruct (fs s !! dir) as [d|] eqn:Hd'; [exfalso; apply Hd; eauto |].
    reflexivity.
Qed.

(** Membership in the set that [diff] builds is membership in [done]. *)
Lemma in_done_set (l : list string) (n : string) :
  n ∈ (list_to_set l : gset string) <-> n ∈ l.
Proof. apply elem_of_list_to_set. Qed.

Lemma filter_not_in_done (l names : list string) :
  filter (fun n => n ∉ (list_to_set l : gset string)) names =
  filter (fun n => n ∉ l) names.
Proof.
  apply list_filter_iff. intros n. rewrite in_done_set. reflexivity.
Qed.

(** C1. For every state of a file-based router, [todo] is the sorted list
    (by code points) of the names of the scripts of the directory that match
    the mask, and [diff] is the list of the names of [todo] that are not in
    [done], in the order of [todo]; so no name of [diff] is in [done]. *)
Theorem diff_is_todo_without_done (dir : string) (s : state) :
  exists names s',
    todo (Router dir) s = (Ok names, s') /\
    StronglySorted str_le names /\
    names ≡ₚ script_names dir s /\
    diff (Router dir) s =
      (Ok (filter (fun n => n ∉ ledger (database s)) names), s') /\
    forall n, n ∈ filter (fun n => n ∉ ledger (database s)) names ->
              n ∈ names /\ n ∉ ledger (database s).
Proof.
  eexists _, _. split; [apply todo_Router |].
  destruct (sorted_spec (script_names dir s)) as [Hs Hp].
  split; [exact Hs |]. split; [exact Hp |]. split.
  - unfold diff, bind, done, ret. rewrite todo_Router.
    rewrite filter_not_in_done. reflexivity.
  - intros n Hn. apply list_elem_of_filter in Hn. tauto.
Qed.

(** ** What a call of a procedure touches *)

Lemma same_outside_schema_refl s : same_outside_schema s s.
Proof. repeat split. Qed.

Lemma same_outside_schema_trans s1 s2 s3 :
  same_outside_schema s1 s2 -> same_outside_schema s2 s3 ->
  same_outside_schema s1 s3.
Proof.
  intros (?&?&?&?) (?&?&?&?). repeat split; congruence.
Qed.

Lemma read_state r name s : snd (read r name s) = s.
Proof.
  destruct r as [dir | md]; simpl.
  - unfold bind, open_script, ret.
    destruct (fs s !! _ ≫= _); reflexivity.
  - destruct (md !! name); reflexivity.
Qed.

Lemma send_frame q s :
  same_outside_schema s (snd (send q s)).
Proof.
  unfold send. destruct (execute_sql q (schema (database s)));
    repeat split.
Qed.

Lemma send_all_frame qs s :
  same_outside_schema s (snd (send_all qs s)).
Proof.
  revert s. induction qs as [|q qs IH]; intros s; simpl.
  - apply same_outside_schema_refl.
  - unfold bind. pose proof (send_frame q s) as Hq.
    destruct (send q s) as [[[]|e] s1]; simpl in *; [|exact Hq].
    eapply same_outside_schema_trans; [exact Hq | apply IH].
Qed.

(** Under the mocks a body leaves the state as it is, and the registry as
    [registry_after] tells. *)
Lemma run_actions_stub acts m s :
  exists res m',
    run_actions true acts (m, s) = (res, (m', s)) /\
    match res with
    | Ok _ => registry_after acts (orm m) = Some (orm m')
    | Raised _ => registry_after acts (orm m) = None
    end.
Proof.
  revert m. induction acts as [|a acts IH]; intros m; simpl.
  - eexists _, _. split; reflexivity.
  - destruct a as [o | q | e]; simpl.
    + unfold bind, migrator_call.
      destruct (apply_op o (orm m)) as [reg|]; [|eexists _, _; split; reflexivity].
      apply IH.
    + unfold bind, ret. apply IH.
    + eexists _, _. split; reflexivity.
Qed.

(** For real a body touches the schema and the statements sent, nothing
    else of the state. *)
Lemma run_actions_frame acts m s :
  same_outside_schema s (snd (snd (run_actions false acts (m, s)))).
Proof.
  revert m s. induction acts as [|a acts IH]; intros m s; simpl.
  - apply same_outside_schema_refl.
  - destruct a as [o | q | e]; simpl.
    + unfold bind, migrator_call.
      destruct (apply_op o (orm m)) as [reg|]; simpl;
        [apply IH | apply same_outside_schema_refl].
    + unfold bind, world. pose proof (send_frame q s) as Hq.
      destruct (send q s) as [[[]|e] s1]; simpl in *; [|exact Hq].
      eapply same_outside_schema_trans; [exact Hq | apply IH].
    + apply same_outside_schema_refl.
Qed.

Lemma call_frame p fake m s :
  same_outside_schema s (snd (snd (call p fake false (m, s)))).
Proof.
  unfold call. destruct (accepts_fake p).
  - apply run_actions_frame.
  - apply same_outside_schema_refl.
Qed.

Lemma migrator_run_frame m s :
  same_outside_schema s (snd (snd (migrator_run (m, s)))).
Proof.
  unfold migrator_run, bind, world. simpl.
  pose proof (send_all_frame (ops m) s) as Hq.
  destruct (send_all (ops m) s) as [[[]|e] s1]; simpl in *; exact Hq.
Qed.

(** ** [run_one] in fake mode *)

Lemma run_one_fake r name downgrade force m s :
  exists res m' s',
    run_one r name true downgrade force (m, s) = (res, (m', s')) /\
    fs s' = fs s /\ cache s' = cache s /\
    schema (database s') = schema (database s) /\
    match res with
    | Ok _ =>
        exists migrate rollback,
          read r name s = (Ok (migrate, rollback), s) /\
          accepts_fake migrate = true /\
          registry_after (body migrate true) (orm m) = Some (orm m') /\
          ops m' = [] /\
          ledger (database s') =
            (ledger (database s) ++ when_forced force name)%list /\
          sent s' = (sent s ++ when_forced force (LedgerInsert name))%list /\
          log s' = app (log s) (when_forced force (INFO, "Done " ++ name))
    | Raised _ =>
        ledger (database s') = ledger (database s) /\
        sent s' = sent s /\
        log s' = (log s ++ [failure_record name downgrade])%list
    end.
Proof.
  unfold run_one, try_except, run_one_try, run_one_except, failure_record,
    database_rollback, bind, world, logger, raise, ret.
  pose proof (read_state r name s) as Hread.
  destruct (read r name s) as [[[migrate rollback]|e] s1]; simpl in Hread;
    subst s1.
  - unfold call. destruct (accepts_fake migrate) eqn:Hacc.
    + destruct (run_actions_stub (body migrate true) m s)
        as (res & m1 & Hrun & Hreg).
      rewrite Hrun. destruct res as [[]|e].
      * destruct force; simpl; eexists _, _, _;
          (split; [reflexivity |]); repeat split;
          eexists _, _; repeat split; try eassumption;
          rewrite ?app_nil_r; reflexivity.
      * simpl. eexists _, _, _. split; [reflexivity |]. repeat split.
    + simpl. eexists _, _, _. split; [reflexivity |]. repeat split.
  - simpl. eexists _, _, _. split; [reflexivity |]. repeat split.
Qed.

(** A fake [run_one] returns when the script is found, its forward procedure
    accepts [fake] and its body does not raise. *)
Lemma run_one_fake_ok r name downgrade force m s migrate rollback reg :
  read r name s = (Ok (migrate, rollback), s) ->
  accepts_fake migrate = true ->
  registry_after (body migrate true) (orm m) = Some reg ->
  exists m' s',
    run_one r name true downgrade force (m, s) = (Ok tt, (m', s')) /\
    orm m' = reg /\
    fs s' = fs s /\ cache s' = cache s /\
    schema (database s') = schema (database s) /\
    ledger (database s') =
      (ledger (database s) ++ when_forced force name)%list /\
    sent s' = (sent s ++ when_forced force (LedgerInsert name))%list.
Proof.
  intros Hread Hacc Hreg.
  destruct (run_one_fake r name downgrade force m s)
    as (res & m' & s' & Hrun & Hfs & Hc & Hschema & Hres).
  destruct res as [[]|e].
  - exists m', s'. split; [exact Hrun |].
    destruct Hres as (mig & rb & Hread' & _ & Hreg' & _ & Hl & Hs & _).
    rewrite Hread in Hread'. injection Hread' as <- <-.
    repeat split; try assumption. congruence.
  - exfalso. revert Hrun.
    unfold run_one, try_except, run_one_try, run_one_except, bind, world,
      call. rewrite Hread, Hacc.
    destruct (run_actions_stub (body migrate true) m s)
      as (res & m1 & Hact & Hres1).
    rewrite Hact. destruct res as [[]|e1].
    + destruct force; discriminate.
    + congruence.
Qed.

(** C5. A fake [run_one] sends the database no statement of the migration
    and leaves the schema, the files and the router's cache as they are; when
    it returns, the registry of the Migrator is the one that the calls of the
    forward procedure leave, and the ledger has got one row, for this
    migration, exactly when [force] is set; when it raises, the ledger is
    unchanged. And it does return whenever the script is found, its forward
    procedure accepts [fake] and the calls of that procedure are accepted by
    the registry: the Migrator then holds the registry that these calls
    leave, the ledger has the one new row when [force] is set and is the
    same when it is not, and the database was sent the insertion of that row
    or nothing. *)
Theorem fake_run_one_sends_nothing (r : router) (name : string)
  (downgrade force : bool) (m : Migrator) (s : state) :
  (exists res m' s',
     run_one r name true downgrade force (m, s) = (res, (m', s')) /\
     schema (database s') = schema (database s) /\
     fs s' = fs s /\
     (forall q, Query q ∈ sent s' -> Query q ∈ sent s) /\
     match res with
     | Ok _ =>
         (exists migrate rollback,
            read r name s = (Ok (migrate, rollback), s) /\
            accepts_fake migrate = true /\
            registry_after (body migrate true) (orm m) = Some (orm m')) /\
         ledger (database s') =
           (if force then ledger (database s) ++ [name]
            else ledger (database s))%list /\
         sent s' =
           (if force then sent s ++ [LedgerInsert name] else sent s)%list
     | Raised _ =>
         ledger (database s') = ledger (database s) /\ sent s' = sent s
     end) /\
  (forall migrate rollback reg,
     read r name s = (Ok (migrate, rollback), s) ->
     accepts_fake migrate = true ->
     registry_after (body migrate true) (orm m) = Some reg ->
     exists m' s',
       run_one r name true downgrade force (m, s) = (Ok tt, (m', s')) /\
       orm m' = reg /\
       schema (database s') = schema (database s) /\
       fs s' = fs s /\
       ledger (database s') =
         (if force then ledger (database s) ++ [name]
          else ledger (database s))%list /\
       sent s' =
         (if force then sent s ++ [LedgerInsert name] else sent s)%list).
Proof.
  split.
  - destruct (run_one_fake r name downgrade force m s)
      as (res & m' & s' & Hrun & Hfs & _ & Hschema & Hres).
    exists res, m', s'. split; [exact Hrun |].
    split; [exact Hschema |]. split; [exact Hfs |].
    destruct res as [[]|e].
    + destruct Hres
        as (migrate & rollback & Hread & Hacc & Hreg & _ & Hl & Hs & _).
      split.
      * intros q Hq. rewrite Hs in Hq. apply elem_of_app in Hq.
        destruct Hq as [Hq | Hq]; [exact Hq |].
        destruct force; simpl in Hq.
        -- apply list_elem_of_singleton in Hq. discriminate.
        -- apply elem_of_nil in Hq. destruct Hq.
      * split; [eauto |]. rewrite Hl, Hs.
        destruct force; simpl; rewrite ?app_nil_r; split; reflexivity.
    + destruct Hres as (Hl & Hs & _). rewrite Hs. auto.
  - intros migrate rollback reg Hread Hacc Hreg.
    destruct (run_one_fake_ok r name downgrade force m s migrate rollback reg
                Hread Hacc Hreg)
      as (m' & s' & Hrun & Horm & Hfs & _ & Hschema & Hl & Hs).
    exists m', s'. split; [exact Hrun |]. split; [exact Horm |].
    split; [exact Hschema |]. split; [exact Hfs |].
    rewrite Hl, Hs.
    destruct force; simpl; rewrite ?app_nil_r; split; reflexivity.
Qed.

(** C10. After a fake [run_one] that returns, the queue of the Migrator is
    empty, whatever it held before, and its registry is the one that the
    calls of the forward procedure of the migration leave. *)
Theorem fake_run_one_leaves_queue_empty (r : router) (name : string)
  (downgrade force : bool) (m m' : Migrator) (s s' : state) :
  run_one r name true downgrade force (m, s) = (Ok tt, (m', s')) ->
  ops m' = [] /\
  exists migrate rollback,
    read r name s = (Ok (migrate, rollback), s) /\
    registry_after (body migrate true) (orm m) = Some (orm m').
Proof.
  intros Hrun.
  destruct (run_one_fake r name downgrade force m s)
    as (res & m1 & s1 & Hrun1 & _ & _ & _ & Hres).
  rewrite Hrun in Hrun1. injection Hrun1 as <- <- <-.
  destruct Hres as (migrate & rollback & Hread & _ & Hreg & Hops & _).
  split; [exact Hops |]. eauto.
Qed.

(** ** [run_one] for real *)

Lemma run_one_try_real r name downgrade force m s :
  exists res m' s1,
    run_one_try r name false downgrade force (m, s) = (res, (m', s1)) /\
    fs s1 = fs s /\ cache s1 = cache s /\
    match res with
    | Ok _ =>
        ledger (database s1) =
          (if downgrade
           then filter (fun n => n <> name) (ledger (database s))
           else ledger (database s) ++ [name])%list
    | Raised e => database s1 = database s
    end.
Proof.
  unfold run_one_try, transaction.
  unfold bind at 1. unfold world at 1.
  pose proof (read_state r name s) as Hread.
  destruct (read r name s) as [[[migrate rollback]|e] s0]; simpl in Hread;
    subst s0.
  2:{ eexists _, _, _. split; [reflexivity |]. repeat split. }
  destruct downgrade; simpl negb; cbv iota.
  - (* the reverse procedure *)
    unfold bind, world, logger, raise, ret.
    set (s0 := set_log _ s).
    pose proof (call_frame rollback false m s0) as Hc.
    destruct (call rollback false false (m, s0)) as [[[]|e] [m1 s1]];
      simpl in Hc; destruct Hc as (Hc1 & Hc2 & Hc3 & Hc4);
      subst s0; simpl in Hc1, Hc2, Hc3, Hc4.
    + pose proof (migrator_run_frame m1 s1) as Hr.
      destruct (migrator_run (m1, s1)) as [[[]|e] [m2 s2]];
        simpl in Hr; destruct Hr as (Hr1 & Hr2 & Hr3 & Hr4).
      * eexists _, _, _. split; [reflexivity |]. simpl.
        repeat split; congruence.
      * eexists _, _, _. split; [reflexivity |]. simpl.
        repeat split; congruence.
    + eexists _, _, _. split; [reflexivity |]. simpl.
      repeat split; congruence.
  - (* the forward procedure *)
    unfold bind, world, logger, raise, ret.
    set (s0 := set_log _ s).
    pose proof (call_frame migrate false m s0) as Hc.
    destruct (call migrate false false (m, s0)) as [[[]|e] [m1 s1]];
      simpl in Hc; destruct Hc as (Hc1 & Hc2 & Hc3 & Hc4);
      subst s0; simpl in Hc1, Hc2, Hc3, Hc4.
    + pose proof (migrator_run_frame m1 s1) as Hr.
      destruct (migrator_run (m1, s1)) as [[[]|e] [m2 s2]];
        simpl in Hr; destruct Hr as (Hr1 & Hr2 & Hr3 & Hr4).
      * eexists _, _, _. split; [reflexivity |]. simpl.
        repeat split; congruence.
      * eexists _, _, _. split; [reflexivity |]. simpl.
        repeat split; congruence.
    + eexists _, _, _. split; [reflexivity |]. simpl.
      repeat split; congruence.
Qed.

(** [run_one] returns what its [try] block returns, and raises what the
    block raises, after one more record in the log. *)
Lemma run_one_try_except r name fake downgrade force m s :
  run_one r name fake downgrade force (m, s) =
    match run_one_try r name fake downgrade force (m, s) with
    | (Ok a, st) => (Ok a, st)
    | (Raised e, (m', s1)) =>
        (Raised e,
         (m', set_log (log s1 ++ [failure_record name downgrade]) s1))
    end.
Proof.
  unfold run_one, try_except.
  destruct (run_one_try r name fake downgrade force (m, s))
    as [[[]|e] [m' s1]]; reflexivity.
Qed.

Lemma run_one_real r name downgrade force m s :
  exists res m' s',
    run_one r name false downgrade force (m, s) = (res, (m', s')) /\
    fs s' = fs s /\ cache s' = cache s /\
    match res with
    | Ok _ =>
        ledger (database s') =
          (if downgrade
           then filter (fun n => n <> name) (ledger (database s))
           else ledger (database s) ++ [name])%list
    | Raised e => database s' = database s
    end.
Proof.
  rewrite run_one_try_except.
  destruct (run_one_try_real r name downgrade force m s)
    as (res & m' & s1 & Htry & Hfs & Hc & Hres).
  rewrite Htry. destruct res as [[]|e]; eexists _, _, _;
    (split; [reflexivity |]); repeat split; assumption.
Qed.

(** C3, with the tag that the code logs. When a real [run_one] raises, the
    exception is the one that its [try] block raised; the ledger and the
    schema are those of before the call, so no row of the migration and
    nothing of what it ran is left in the database; the files are untouched;
    and the last record of the log is at the level of [logger.exception] and
    reads [Migration failed: <name>] for a forward run, [Rollback failed:
    <name>] for a downgrade. *)
Theorem real_run_one_failure_is_rolled_back (r : router) (name : string)
  (downgrade force : bool) (m m' : Migrator) (s s' : state) (e : exn) :
  run_one r name false downgrade force (m, s) = (Raised e, (m', s')) ->
  (exists s1,
     run_one_try r name false downgrade force (m, s)
       = (Raised e, (m', s1))) /\
  ledger (database s') = ledger (database s) /\
  schema (database s') = schema (database s) /\
  fs s' = fs s /\
  last (log s') =
    Some (EXCEPTION,
          (if downgrade then "Rollback" else "Migration")
          ++ " failed: " ++ name).
Proof.
  rewrite run_one_try_except.
  destruct (run_one_try_real r name downgrade force m s)
    as (res & m1 & s1 & Htry & Hfs & Hc & Hres).
  rewrite Htry. destruct res as [[]|e1]; [discriminate |].
  intros Heq. injection Heq as <- <- <-. simpl.
  split; [eauto |]. rewrite Hres.
  repeat split; try assumption.
  rewrite last_snoc. unfold failure_record. destruct downgrade; reflexivity.
Qed.

(** ** The cached Migrator *)

Lemma same_but_log_refl s : same_but_log s s.
Proof. repeat split. Qed.

Lemma same_but_log_trans s1 s2 s3 :
  same_but_log s1 s2 -> same_but_log s2 s3 -> same_but_log s1 s3.
Proof. intros (?&?&?&?) (?&?&?&?). repeat split; congruence. Qed.

Lemma db_eq (d d' : db) :
  ledger d' = ledger d -> schema d' = schema d -> d' = d.
Proof. destruct d, d'; simpl; intros -> ->; reflexivity. Qed.

(** A fake run that is not forced writes nothing but log records. *)
Lemma run_one_fake_unforced r name downgrade m s :
  same_but_log s (snd (snd (run_one r name true downgrade false (m, s)))).
Proof.
  destruct (run_one_fake r name downgrade false m s)
    as (res & m' & s' & Hrun & Hfs & Hc & Hschema & Hres).
  rewrite Hrun. simpl. repeat split; try assumption.
  - apply db_eq; [|exact Hschema].
    destruct res as [[]|e].
    + destruct Hres as (? & ? & _ & _ & _ & _ & Hl & _). rewrite Hl.
      apply app_nil_r.
    + tauto.
  - destruct res as [[]|e].
    + destruct Hres as (? & ? & _ & _ & _ & _ & _ & Hs & _). rewrite Hs.
      apply app_nil_r.
    + tauto.
Qed.

Lemma replay_frame r names m s :
  same_but_log s (snd (snd (replay r names (m, s)))).
Proof.
  revert m s. induction names as [|n names IH]; intros m s; simpl.
  - apply same_but_log_refl.
  - unfold bind. pose proof (run_one_fake_unforced r n false m s) as H1.
    destruct (run_one r n true false false (m, s)) as [[[]|e] [m1 s1]];
      simpl in H1; [|exact H1].
    eapply same_but_log_trans; [exact H1 | apply IH].
Qed.

(** The property [migrator]: the cached object when there is one, without
    any replay; else the Migrator that the fake replay of [done] builds from
    a new one, which is cached when the replay succeeds. *)
Lemma migrator_cached r m s :
  cache s = Some m -> migrator r s = (Ok m, s).
Proof. intros Hc. unfold migrator. rewrite Hc. reflexivity. Qed.

Lemma migrator_built r s :
  cache s = None ->
  exists res m' s',
    replay r (ledger (database s)) (new_migrator, s) = (res, (m', s')) /\
    same_but_log s s' /\
    migrator r s =
      match res with
      | Ok _ => (Ok m', set_cache (Some m') s')
      | Raised e => (Raised e, s')
      end.
Proof.
  intros Hc. unfold migrator. rewrite Hc.
  unfold bind, world, done. simpl.
  pose proof (replay_frame r (ledger (database s)) new_migrator s) as Hf.
  destruct (replay r (ledger (database s)) (new_migrator, s))
    as [[[]|e] [m' s']]; simpl in Hf;
    eexists _, _, _; (split; [reflexivity |]); split; try exact Hf;
    reflexivity.
Qed.

(** [migrator] leaves the files, the database and the statements sent as
    they are. *)
Lemma migrator_frame r s :
  fs (snd (migrator r s)) = fs s /\
  database (snd (migrator r s)) = database s /\
  sent (snd (migrator r s)) = sent s.
Proof.
  destruct (cache s) as [m|] eqn:Hc.
  - rewrite (migrator_cached r m s Hc). repeat split.
  - destruct (migrator_built r s Hc)
      as (res & m' & s' & _ & (Hfs & Hdb & Hs & _) & ->).
    destruct res as [[]|e]; simpl; repeat split; assumption.
Qed.

(** ** [rollback] *)

(** C9. On an empty ledger [rollback] raises
    [RuntimeError('No migrations are found.')] for every name, and the whole
    state is the one of before the call: ledger, schema, files, log and the
    router's Migrator; nothing was read or executed. *)
Theorem rollback_on_empty_ledger (r : router) (name : string) (s : state) :
  ledger (database s) = [] ->
  rollback r name s = (Raised (RuntimeError "No migrations are found."), s).
Proof.
  intros Hl. unfold rollback, bind, done. rewrite Hl. reflexivity.
Qed.

(** [run_one] for real and in reverse on the router's Migrator. *)
Lemma downgrade_on_migrator r n msg s :
  let out := (let* migrator := migrator r in
              on_object migrator (run_one r n false true false) >>
              logger WARNING msg) s in
  fs (snd out) = fs s /\
  match fst out with
  | Ok _ =>
      ledger (database (snd out)) =
        filter (fun x => x <> n) (ledger (database s))
  | Raised _ => database (snd out) = database s
  end.
Proof.
  unfold bind.
  destruct (migrator_frame r s) as (Hmfs & Hmdb & Hms).
  destruct (migrator r s) as [[m|e] s1]; simpl in Hmfs, Hmdb, Hms.
  - unfold on_object, logger.
    destruct (run_one_real r n true false m s1)
      as (res & m' & s' & Hrun & Hfs & Hc & Hres).
    rewrite Hrun. destruct res as [[]|e]; simpl.
    + split; [congruence |]. rewrite Hres, Hmdb. reflexivity.
    + split; [congruence |]. rewrite Hres. exact Hmdb.
  - simpl. split; assumption.
Qed.

(** C4, as the code has it. On a ledger that is not empty, [rollback(name)]
    compares [name.strip()] with the last name of the ledger. When they
    differ it raises [RuntimeError('Only last migration can be canceled.')]
    and the whole state is the one of before the call. When they are the
    same it takes the router's Migrator and runs [run_one] on it with
    [fake=False] and [downgrade=True]; the files are untouched; when that
    returns, the rows of this name are gone from the ledger and the other rows
    are as before, and when it raises, the ledger and the schema are those of
    before the call. *)
Theorem rollback_only_the_last (r : router) (name last_name : string)
  (s : state) :
  last (ledger (database s)) = Some last_name ->
  (strip name <> last_name ->
   rollback r name s =
     (Raised (RuntimeError "Only last migration can be canceled."), s)) /\
  (strip name = last_name ->
   rollback r name s =
     (let* migrator := migrator r in
      on_object migrator (run_one r last_name false true false) >>
      logger WARNING ("Downgraded migration: " ++ last_name)) s /\
   fs (snd (rollback r name s)) = fs s /\
   match fst (rollback r name s) with
   | Ok _ =>
       ledger (database (snd (rollback r name s))) =
         filter (fun n => n <> last_name) (ledger (database s))
   | Raised _ => database (snd (rollback r name s)) = database s
   end).
Proof.
  intros Hlast.
  assert (Hne : ledger (database s) <> []).
  { intros Hnil. rewrite Hnil in Hlast. discriminate. }
  assert (Hunfold :
    rollback r name s =
      if bool_decide (strip name = last_name)
      then (let* migrator := migrator r in
            on_object migrator (run_one r (strip name) false true false) >>
            logger WARNING ("Downgraded migration: " ++ strip name)) s
      else (Raised (RuntimeError "Only last migration can be canceled."), s)).
  { unfold rollback. unfold bind at 1. unfold done at 1.
    rewrite bool_decide_eq_false_2 by exact Hne.
    rewrite Hlast.
    destruct (decide (strip name = last_name)) as [Heq | Hneq].
    - rewrite (bool_decide_eq_true_2 _ Heq).
      rewrite bool_decide_eq_false_2; [reflexivity |].
      intros Hc. apply Hc. congruence.
    - rewrite (bool_decide_eq_false_2 _ Hneq).
      rewrite bool_decide_eq_true_2; [reflexivity |]. congruence. }
  split.
  - intros Hneq. rewrite Hunfold.
    rewrite (bool_decide_eq_false_2 _ Hneq). reflexivity.
  - intros Heq. rewrite Hunfold.
    rewrite (bool_decide_eq_true_2 _ Heq). rewrite Heq.
    split; [reflexivity |].
    apply (downgrade_on_migrator r last_name).
Qed.

(** ** [run] *)

(** A forward [run_one] as [run] calls it, with [force=fake]: one ledger
    row for the migration when it returns, none when it raises. *)
Lemma run_one_forward r name fake m s :
  exists res m' s',
    run_one r name fake false fake (m, s) = (res, (m', s')) /\
    fs s' = fs s /\
    ledger (database s') =
      (ledger (database s)
       ++ match res with Ok _ => [name] | Raised _ => [] end)%list.
Proof.
  destruct fake.
  - destruct (run_one_fake r name false true m s)
      as (res & m' & s' & Hrun & Hfs & _ & _ & Hres).
    exists res, m', s'. split; [exact Hrun |]. split; [exact Hfs |].
    destruct res as [[]|e].
    + destruct Hres as (? & ? & _ & _ & _ & _ & Hl & _). exact Hl.
    + destruct Hres as (Hl & _). rewrite Hl, app_nil_r. reflexivity.
  - destruct (run_one_real r name false false m s)
      as (res & m' & s' & Hrun & Hfs & _ & Hres).
    exists res, m', s'. split; [exact Hrun |]. split; [exact Hfs |].
    destruct res as [[]|e]; [exact Hres |].
    rewrite Hres, app_nil_r. reflexivity.
Qed.

(** The loop of [run]: it applies the entries of [up_to_target] in order,
    one ledger row for each, until one raises. *)
Lemma run_loop_spec r name fake pending acc m s :
  exists res m' s' applied,
    run_loop r name fake pending acc (m, s) = (res, (m', s')) /\
    fs s' = fs s /\
    ledger (database s') = (ledger (database s) ++ applied)%list /\
    match res with
    | Ok l => applied = up_to_target name pending /\ l = (acc ++ applied)%list
    | Raised _ =>
        exists failed,
          (applied ++ [failed])%list `prefix_of` up_to_target name pending
    end.
Proof.
  revert acc m s. induction pending as [|mname pending IH]; intros acc m s.
  - exists (Ok acc), m, s, []. simpl. rewrite !app_nil_r. auto.
  - simpl. unfold bind.
    destruct (run_one_forward r mname fake m s)
      as (res & m1 & s1 & Hrun & Hfs & Hl).
    rewrite Hrun. destruct res as [[]|e].
    + destruct (is_target name mname).
      * exists (Ok (acc ++ [mname])%list), m1, s1, [mname].
        unfold ret. auto.
      * destruct (IH (acc ++ [mname])%list m1 s1)
          as (res & m' & s' & applied & Hloop & Hfs' & Hl' & Hres).
        exists res, m', s', (mname :: applied). rewrite Hloop.
        split; [reflexivity |]. split; [congruence |].
        split; [rewrite Hl', Hl, <- app_assoc; reflexivity |].
        destruct res as [l|e].
        -- destruct Hres as [-> ->]. split; [reflexivity |].
           rewrite <- app_assoc. reflexivity.
        -- destruct Hres as [failed Hp]. exists failed. simpl.
           apply prefix_cons. exact Hp.
    + exists (Raised e), m1, s1, []. split; [reflexivity |].
      split; [exact Hfs |]. split; [exact Hl |].
      exists mname. simpl. apply prefix_cons. apply prefix_nil.
Qed.

(** [diff] touches the files and the log at most. *)
Lemma diff_frame r s :
  database (snd (diff r s)) = database s /\
  sent (snd (diff r s)) = sent s /\
  cache (snd (diff r s)) = cache s.
Proof.
  unfold diff, bind, done, ret. destruct r as [dir | md].
  - rewrite todo_Router. case_bool_decide; simpl; repeat split.
  - simpl. repeat split.
Qed.

Lemma run_unfold r name fake s :
  run r name fake s =
    match diff r (set_log (log s ++ [(INFO, "Starting migrations")]) s) with
    | (Raised e, s1) => (Raised e, s1)
    | (Ok pending, s1) =>
        if bool_decide (pending = []) then
          (Ok [], set_log (log s1 ++ [(INFO, "There is nothing to migrate")])
                    s1)
        else
          match migrator r s1 with
          | (Raised e, s2) => (Raised e, s2)
          | (Ok m, s2) => on_object m (run_loop r name fake pending []) s2
          end
    end.
Proof.
  unfold run, bind, logger, ret. simpl.
  destruct (diff r _) as [[pending|e] s1]; [| reflexivity].
  case_bool_decide; reflexivity.
Qed.

(** C2, as the code has it. [run] logs that it starts and takes [diff].
    When [diff] is empty it returns the empty list and the database, the
    statements sent and the router's Migrator are as before. Otherwise it
    takes the router's Migrator: the cached object as earlier calls left it
    when there is one, without any replay, and else the Migrator that the
    fake replay of every [done] migration builds from a new one. On that
    Migrator it applies the entries of [diff] in order, up to the target when
    one is given, with one ledger row per entry applied, until one raises;
    when none raises it returns the entries applied. *)
Theorem run_applies_the_pending (r : router) (name : option string)
  (fake : bool) (s : state) :
  let s0 := set_log (log s ++ [(INFO, "Starting migrations")]) s in
  match diff r s0 with
  | (Raised e, s1) => run r name fake s = (Raised e, s1)
  | (Ok pending, s1) =>
      if bool_decide (pending = []) then
        run r name fake s =
          (Ok [], set_log (log s1 ++ [(INFO, "There is nothing to migrate")])
                    s1) /\
        sent s1 = sent s /\ database s1 = database s /\ cache s1 = cache s
      else
        match migrator r s1 with
        | (Raised e, s2) => run r name fake s = (Raised e, s2)
        | (Ok m, s2) =>
            match cache s1 with
            | Some m0 => m = m0 /\ s2 = s1
            | None =>
                exists s2',
                  replay r (ledger (database s1)) (new_migrator, s1)
                    = (Ok tt, (m, s2')) /\
                  s2 = set_cache (Some m) s2'
            end /\
            exists res m' s' applied,
              run_loop r name fake pending [] (m, s2) = (res, (m', s')) /\
              run r name fake s = (res, set_cache (Some m') s') /\
              ledger (database s') = (ledger (database s) ++ applied)%list /\
              match res with
              | Ok l => l = applied /\ applied = up_to_target name pending
              | Raised _ =>
                  exists failed,
                    (applied ++ [failed])%list
                      `prefix_of` up_to_target name pending
              end
        end
  end.
Proof.
  intros s0. rewrite run_unfold. fold s0.
  destruct (diff_frame r s0) as (Hdb & Hsent & Hcache).
  destruct (diff r s0) as [[pending|e] s1]; simpl in Hdb, Hsent, Hcache;
    [| reflexivity].
  case_bool_decide as Hp.
  - repeat split; assumption.
  - destruct (migrator_frame r s1) as (_ & Hmdb & _).
    destruct (cache s1) as [m0|] eqn:Hc.
    + rewrite (migrator_cached r m0 s1 Hc). split; [split; reflexivity |].
      destruct (run_loop_spec r name fake pending [] m0 s1)
        as (res & m' & s' & applied & Hloop & _ & Hl & Hres).
      exists res, m', s', applied. split; [exact Hloop |].
      unfold on_object. rewrite Hloop. split; [reflexivity |].
      split; [rewrite Hl, Hdb; reflexivity |].
      destruct res as [l|e]; [|exact Hres].
      destruct Hres as [-> ->]. split; reflexivity.
    + destruct (migrator_built r s1 Hc)
        as (res0 & m & s2' & Hreplay & (_ & Hdb2 & _ & _) & Hm).
      rewrite Hm in *. destruct res0 as [[]|e]; [| reflexivity].
      split; [exists s2'; split; [exact Hreplay | reflexivity] |].
      destruct (run_loop_spec r name fake pending [] m (set_cache (Some m) s2'))
        as (res & m' & s' & applied & Hloop & _ & Hl & Hres).
      exists res, m', s', applied. split; [exact Hloop |].
      unfold on_object. rewrite Hloop. split; [reflexivity |].
      split; [rewrite Hl; simpl; rewrite Hdb2, Hdb; reflexivity |].
      destruct res as [l|e]; [|exact Hres].
      destruct Hres as [-> ->]. split; reflexivity.
Qed.

(** ** [clear] and [merge] *)

Arguments re_match : simpl never.

Lemma append_py_inj (a b : string) : a ++ ".py" = b ++ ".py" -> a = b.
Proof.
  revert b. induction a as [|c a IH]; intros [|c' b]; simpl; intros Heq.
  - reflexivity.
  - injection Heq as -> Heq. destruct b as [|? [|? [|? ?]]]; discriminate.
  - injection Heq as -> Heq. destruct a as [|? [|? [|? ?]]]; discriminate.
  - injection Heq as -> Heq. f_equal. apply IH. exact Heq.
Qed.

Lemma without_scripts_lookup names d f :
  without_scripts names d !! f =
    if bool_decide (f ∈ map (fun n => n ++ ".py") names) then None
    else d !! f.
Proof.
  unfold without_scripts. revert d.
  induction names as [|n names IH]; intros d.
  - reflexivity.
  - cbn [foldl map]. rewrite IH.
    destruct (decide (f = n ++ ".py")) as [-> | Hne].
    + rewrite lookup_delete_eq.
      rewrite (bool_decide_eq_true_2 (_ ∈ _ :: _)) by apply list_elem_of_here.
      case_bool_decide; reflexivity.
    + rewrite lookup_delete_ne by congruence.
      case_bool_decide as Hin.
      * rewrite bool_decide_eq_true_2; [reflexivity |].
        apply list_elem_of_further. exact Hin.
      * rewrite bool_decide_eq_false_2; [reflexivity |].
        intros Hc. apply elem_of_cons in Hc. destruct Hc; contradiction.
Qed.

Lemma remove_scripts_ok dir names s d :
  fs s !! dir = Some d ->
  NoDup names ->
  (forall n, n ∈ names -> is_Some (d !! (n ++ ".py"))) ->
  remove_scripts dir names s =
    (Ok tt, set_fs (<[dir := without_scripts names d]> (fs s)) s).
Proof.
  revert s d. induction names as [|n names IH]; intros s d Hd Hnd Hin.
  - simpl. unfold ret, without_scripts. simpl.
    rewrite insert_id by exact Hd. destruct s; reflexivity.
  - simpl. unfold bind, os_remove. rewrite Hd. cbv beta iota.
    rewrite bool_decide_eq_true_2
      by (apply Hin; apply list_elem_of_here).
    apply NoDup_cons in Hnd. destruct Hnd as [Hn Hnd].
    rewrite (IH _ (delete (n ++ ".py") d)).
    + simpl. rewrite insert_insert_eq. reflexivity.
    + simpl. apply lookup_insert_eq.
    + exact Hnd.
    + intros n' Hn'. rewrite lookup_delete_ne.
      * apply Hin. apply list_elem_of_further. exact Hn'.
      * intros Heq. apply append_py_inj in Heq. subst n'. contradiction.
Qed.

Lemma listing_lookup dir s f :
  f ∈ listing dir s <-> is_Some (directory dir s !! f).
Proof.
  unfold listing, directory. destruct (fs s !! dir) as [d|]; simpl.
  - rewrite <- elem_of_dom. rewrite list_elem_of_fmap. split.
    + intros ([k v] & -> & Hkv). apply elem_of_map_to_list in Hkv.
      apply elem_of_dom. eauto.
    + intros Hf. apply elem_of_dom in Hf. destruct Hf as [v Hv].
      exists (f, v). split; [reflexivity |].
      apply elem_of_map_to_list. exact Hv.
  - rewrite lookup_empty. split.
    + intros Hf. apply elem_of_nil in Hf. destruct Hf.
    + intros [? Hf]. discriminate.
Qed.

Lemma listing_NoDup dir s : NoDup (listing dir s).
Proof.
  unfold listing. destruct (fs s !! dir) as [d|].
  - apply NoDup_fst_map_to_list.
  - apply NoDup_nil_2.
Qed.

(** With plain names, the files of the script names are the files of the
    directory that match [filemask]. *)
Lemma script_files dir s :
  plain_names dir s ->
  map (fun n => n ++ ".py") (script_names dir s) =
  filter (fun f => re_match filemask f = true) (listing dir s).
Proof.
  intros Hplain. unfold script_names, plain_names in *.
  induction (listing dir s) as [|f l IH]; [reflexivity |].
  rewrite filter_cons. case_decide as Hf.
  - simpl. rewrite Hplain; [| apply list_elem_of_here | exact Hf].
    f_equal. apply IH. intros f' Hf'. apply Hplain.
    apply list_elem_of_further. exact Hf'.
  - apply IH. intros f' Hf'. apply Hplain.
    apply list_elem_of_further. exact Hf'.
Qed.

Lemma script_names_NoDup dir s :
  plain_names dir s -> NoDup (script_names dir s).
Proof.
  intros Hplain.
  apply (NoDup_fmap_1 (fun n => n ++ ".py")).
  change (NoDup (map (fun n => n ++ ".py") (script_names dir s))).
  rewrite (script_files dir s Hplain).
  apply NoDup_filter. apply listing_NoDup.
Qed.

Lemma in_script_files dir s names f :
  plain_names dir s -> names ≡ₚ script_names dir s ->
  f ∈ map (fun n => n ++ ".py") names <->
  is_Some (directory dir s !! f) /\ re_match filemask f = true.
Proof.
  intros Hplain Hperm.
  assert (Hp : map (fun n => n ++ ".py") names
               ≡ₚ map (fun n => n ++ ".py") (script_names dir s))
    by (apply Permutation_map; exact Hperm).
  rewrite Hp. rewrite (script_files dir s Hplain).
  rewrite list_elem_of_filter. rewrite listing_lookup. tauto.
Qed.

Lemma directory_Some dir s d : fs s !! dir = Some d -> directory dir s = d.
Proof. intros Hd. unfold directory. rewrite Hd. reflexivity. Qed.

Lemma directory_None dir s : fs s !! dir = None -> directory dir s = ∅.
Proof. intros Hd. unfold directory. rewrite Hd. reflexivity. Qed.

(** [Router.clear] after the ledger: every script file goes, the other
    files stay. *)
Lemma remove_all_scripts dir s :
  plain_names dir s ->
  exists s',
    (let* names := todo (Router dir) in remove_scripts dir names) s
      = (Ok tt, s') /\
    database s' = database s /\ sent s' = sent s /\ cache s' = cache s /\
    exists d',
      fs s' !! dir = Some d' /\
      forall f, d' !! f =
                  if re_match filemask f then None else directory dir s !! f.
Proof.
  intros Hplain. unfold bind. rewrite todo_Router.
  destruct (sorted_spec (script_names dir s)) as [_ Hperm].
  case_bool_decide as Hd.
  - destruct Hd as [d Hd].
    rewrite (remove_scripts_ok dir _ s d Hd).
    + eexists. split; [reflexivity |]. simpl. repeat split.
      eexists. split; [apply lookup_insert_eq |].
      intros f. rewrite without_scripts_lookup.
      pose proof (in_script_files dir s _ f Hplain Hperm) as Hin.
      rewrite (directory_Some dir s d Hd) in *.
      case_bool_decide as Hf.
      * apply Hin in Hf. destruct Hf as [_ ->]. reflexivity.
      * destruct (re_match filemask f) eqn:Hmask; [| reflexivity].
        destruct (d !! f) eqn:Hdf; [| reflexivity].
        exfalso. apply Hf. apply Hin. split; [eauto | reflexivity].
    + rewrite Hperm. apply script_names_NoDup. exact Hplain.
    + intros n Hn.
      assert (Hn' : n ++ ".py" ∈ map (fun n => n ++ ".py")
                                   (sorted (script_names dir s))).
      { apply list_elem_of_fmap. exists n. split; [reflexivity | exact Hn]. }
      apply (in_script_files dir s _ _ Hplain Hperm) in Hn'.
      rewrite (directory_Some dir s d Hd) in Hn'. apply Hn'.
  - assert (Hnone : fs s !! dir = None).
    { destruct (fs s !! dir) eqn:E; [exfalso; apply Hd; eauto | reflexivity]. }
    assert (Hnames : script_names dir s = []).
    { unfold script_names, listing. rewrite Hnone. reflexivity. }
    rewrite Hnames. simpl. unfold ret. eexists. split; [reflexivity |].
    simpl. repeat split. eexists. split; [apply lookup_insert_eq |].
    intros f. rewrite (directory_None dir s Hnone).
    rewrite lookup_empty. destruct (re_match filemask f); reflexivity.
Qed.

Lemma clear_Router dir s :
  plain_names dir s ->
  exists s',
    clear (Router dir) s = (Ok tt, s') /\
    ledger (database s') = [] /\
    schema (database s') = schema (database s) /\
    sent s' = (sent s ++ [LedgerClear])%list /\
    cache s' = cache s /\
    exists d',
      fs s' !! dir = Some d' /\
      forall f, d' !! f =
                  if re_match filemask f then None else directory dir s !! f.
Proof.
  intros Hplain. unfold clear. unfold bind at 1. unfold model_delete.
  set (s2 := set_sent _ _).
  destruct (remove_all_scripts dir s2 Hplain)
    as (s' & Hrm & Hdb & Hsent & Hc & d' & Hd' & Hlook).
  exists s'. split; [exact Hrm |]. rewrite Hdb, Hsent, Hc.
  repeat split. exists d'. split; [exact Hd' | exact Hlook].
Qed.

Lemma read_Router dir name s sc :
  endswith name "tg_bot" = false ->
  directory dir s !! (name ++ ".py") = Some sc ->
  read (Router dir) name s =
    (Ok (default VOID (scope_migrate sc), default VOID (scope_rollback sc)),
     s).
Proof.
  intros Hend Hsc. unfold read, bind, open_script, ret. rewrite Hend. simpl.
  destruct (fs s !! dir) as [d|] eqn:Hd.
  - rewrite (directory_Some dir s d Hd) in Hsc. simpl. rewrite Hsc.
    reflexivity.
  - rewrite (directory_None dir s Hd) in Hsc.
    rewrite lookup_empty in Hsc. discriminate.
Qed.

Lemma migrator_caches r s m s1 :
  migrator r s = (Ok m, s1) -> cache s1 = Some m.
Proof.
  unfold migrator. destruct (cache s) as [m0|] eqn:Hc.
  - intros Heq. injection Heq as <- <-. exact Hc.
  - destruct ((let* names := world done in replay r names) (new_migrator, s))
      as [[[]|e] [m' s']]; intros Heq; [| discriminate].
    injection Heq as <- <-. reflexivity.
Qed.

Lemma merge_unfold r name s :
  merge r name s =
    match migrator r s with
    | (Raised e, s1) => (Raised e, s1)
    | (Ok cached, s1) =>
        match compile_migrations new_migrator (orm_values (orm cached)) false
        with
        | None => logger ERROR "Can't merge migrations" s1
        | Some migrate =>
            (clear r >>
             logger INFO ("Merge migrations into " ++ dquote ++ name
                          ++ dquote) >>
             let* cached := migrator r in
             let rollback := compile_migrations cached [] false in
             let* name := compile r name migrate (format_code rollback)
                            (Some 0) in
             on_local new_migrator (run_one r name true false true) >>
             logger INFO ("Migrations has been merged into "
                          ++ dquote ++ name ++ dquote)) s1
        end
    end.
Proof.
  unfold merge. unfold bind at 1.
  destruct (migrator r s) as [[cached|e] s1]; [| reflexivity].
  destruct (compile_migrations _ _ _); reflexivity.
Qed.

(** C7, amended by the conditions on the names. Let the router's Migrator
    be there, built by the replay of [done] when it was not cached.
    - When the diff of its registry against an empty one is empty, [merge]
      logs the error [Can't merge migrations] and returns; the files, the
      ledger, the schema and the statements sent are as before.
    - Else, when the script names are plain, the name [001_<name>] does not
      end in [tg_bot] and the forward procedure of the script written accepts
      [fake] and runs on a new Migrator without raising, [merge] returns; the
      ledger then has one row, [001_<name>]; the directory holds the merged
      script under [001_<name>.py], no other file that matches [filemask],
      and the other files as before; the schema is as before, and the
      database was sent the clearing of the ledger and the insertion of the
      row, nothing else. *)
Theorem merge_leaves_one_migration (dir name : string) (s s1 : state)
  (cached : Migrator) :
  migrator (Router dir) s = (Ok cached, s1) ->
  (compile_migrations new_migrator (orm_values (orm cached)) false = None ->
   merge (Router dir) name s =
     (Ok tt, set_log (log s1 ++ [(ERROR, "Can't merge migrations")]) s1) /\
   fs s1 = fs s /\ database s1 = database s /\ sent s1 = sent s) /\
  (forall migrate forward reg,
     compile_migrations new_migrator (orm_values (orm cached)) false
       = Some migrate ->
     plain_names dir s ->
     endswith (merged_name name) "tg_bot" = false ->
     scope_migrate (merged_script name migrate cached) = Some forward ->
     accepts_fake forward = true ->
     registry_after (body forward true) empty_orm = Some reg ->
     exists s',
       merge (Router dir) name s = (Ok tt, s') /\
       ledger (database s') = [merged_name name] /\
       schema (database s') = schema (database s) /\
       sent s' =
         (sent s ++ [LedgerClear; LedgerInsert (merged_name name)])%list /\
       forall f,
         directory dir s' !! f =
           if bool_decide (f = merged_name name ++ ".py")
           then Some (merged_script name migrate cached)
           else if re_match filemask f then None
                else directory dir s !! f).
Proof.
  intros Hm.
  destruct (migrator_frame (Router dir) s) as (Hfs1 & Hdb1 & Hsent1).
  rewrite Hm in Hfs1, Hdb1, Hsent1. simpl in Hfs1, Hdb1, Hsent1.
  pose proof (migrator_caches _ _ _ _ Hm) as Hcache1.
  split.
  - intros Hnone. rewrite merge_unfold, Hm, Hnone.
    repeat split; assumption.
  - intros migrate forward reg Hsome Hplain Hend Hfwd Hacc Hreg.
    rewrite merge_unfold, Hm, Hsome.
    assert (Hplain1 : plain_names dir s1).
    { unfold plain_names, listing in *. rewrite Hfs1. exact Hplain. }
    destruct (clear_Router dir s1 Hplain1)
      as (s2 & Hclear & Hl2 & Hsch2 & Hsent2 & Hc2 & d2 & Hd2 & Hlook2).
    unfold bind at 1. rewrite Hclear.
    unfold bind at 1. unfold logger at 1.
    set (s3 := set_log _ s2).
    unfold bind at 1.
    rewrite (migrator_cached (Router dir) cached s3)
      by (simpl; congruence).
    unfold bind at 1. unfold compile. unfold bind at 1. unfold ret at 1.
    change (format_03 (0 + 1) ++ "_" ++ name) with (merged_name name).
    unfold bind at 1. unfold write_script.
    change (fs s3) with (fs s2). rewrite Hd2.
    unfold ret at 1.
    fold (merged_script name migrate cached).
    set (T := merged_script name migrate cached) in *.
    set (s4 := set_fs _ s3).
    assert (Hdir4 : directory dir s4 !! (merged_name name ++ ".py") = Some T).
    { unfold directory, s4. simpl. rewrite lookup_insert_eq. simpl.
      apply lookup_insert_eq. }
    pose proof (read_Router dir (merged_name name) s4 T Hend Hdir4) as Hread.
    rewrite Hfwd in Hread. simpl in Hread.
    destruct (run_one_fake_ok (Router dir) (merged_name name) false true
                new_migrator s4 _ _ reg Hread Hacc Hreg)
      as (m5 & s5 & Hrun & _ & Hfs5 & _ & Hsch5 & Hl5 & Hsent5).
    unfold bind at 1. unfold on_local. rewrite Hrun.
    unfold logger. eexists. split; [reflexivity |]. simpl.
    split; [rewrite Hl5; simpl; rewrite Hl2; reflexivity |].
    split; [rewrite Hsch5; simpl; congruence |].
    split.
    { rewrite Hsent5. simpl. rewrite Hsent2, Hsent1, <- app_assoc.
      reflexivity. }
    intros f. unfold directory at 1. simpl. rewrite Hfs5. simpl.
    rewrite lookup_insert_eq. simpl.
    case_bool_decide as Hf.
    + subst f. apply lookup_insert_eq.
    + rewrite lookup_insert_ne by congruence. rewrite Hlook2.
      unfold directory. rewrite Hfs1. reflexivity.
Qed.

(** ** A script without one of its procedures *)

Lemma call_VOID fake stub (m : Migrator) (s : state) :
  call VOID fake stub (m, s) = (Raised VOID_TypeError, (m, s)).
Proof. reflexivity. Qed.

(** [read] puts [VOID] where the script has no procedure. *)
Lemma read_missing r name s migrate rollback :
  read r name s = (Ok (migrate, rollback), s) ->
  exists sc,
    migrate = default VOID (scope_migrate sc) /\
    rollback = default VOID (scope_rollback sc).
Proof.
  destruct r as [dir | md]; simpl; unfold bind, open_script, ret.
  - destruct (fs s !! _ ≫= _) as [sc|]; [| discriminate].
    intros Heq. injection Heq as <- <-. eauto.
  - destruct (md !! name) as [sc|]; [| discriminate].
    intros Heq. injection Heq as <- <-. eauto.
Qed.

(** Running the missing reverse procedure raises [TypeError]; the Migrator,
    the database and the statements sent are left as they were. *)
Lemma run_one_without_rollback r name force m s migrate :
  read r name s = (Ok (migrate, VOID), s) ->
  run_one r name false true force (m, s) =
    (Raised VOID_TypeError,
     (m, set_log (log s ++ [(INFO, "Rolling back " ++ name);
                            failure_record name true]) s)).
Proof.
  intros Hread.
  unfold run_one, try_except, run_one_try, run_one_except, transaction,
    bind, world. rewrite Hread. simpl.
  unfold set_log, set_database, failure_record. simpl.
  rewrite <- app_assoc. destruct s; reflexivity.
Qed.

(** Emulating the missing forward procedure raises it too. *)
Lemma run_one_without_migrate r name downgrade force m s rollback :
  read r name s = (Ok (VOID, rollback), s) ->
  run_one r name true downgrade force (m, s) =
    (Raised VOID_TypeError,
     (m, set_log (log s ++ [failure_record name downgrade]) s)).
Proof.
  intros Hread.
  unfold run_one, try_except, run_one_try, run_one_except, bind, world.
  rewrite Hread. reflexivity.
Qed.

(** ** [todo] and [compile] *)

Lemma script_names_fs dir s s' :
  fs s' !! dir = fs s !! dir -> script_names dir s' = script_names dir s.
Proof. intros Hfs. unfold script_names, listing. rewrite Hfs. reflexivity. Qed.

Lemma in_script_names dir s n :
  n ∈ script_names dir s <->
  exists f, is_Some (directory dir s !! f) /\ re_match filemask f = true /\
            drop_last 3 f = n.
Proof.
  unfold script_names. rewrite list_elem_of_fmap. split.
  - intros (f & -> & Hf). apply list_elem_of_filter in Hf as [Hm Hin].
    exists f. rewrite <- listing_lookup. auto.
  - intros (f & Hin & Hm & <-). exists f. split; [reflexivity |].
    apply list_elem_of_filter. rewrite listing_lookup. auto.
Qed.

Lemma in_sorted (l : list string) (n : string) : n ∈ sorted l <-> n ∈ l.
Proof. destruct (sorted_spec l) as [_ Hp]. rewrite Hp. reflexivity. Qed.

Lemma length_sorted (l : list string) : length (sorted l) = length l.
Proof.
  destruct (sorted_spec l) as [_ Hp]. apply Permutation_length. exact Hp.
Qed.


(** The directory after a write. *)
Lemma write_script_ok dir file sc s d :
  fs s !! dir = Some d ->
  write_script dir file sc s =
    (Ok tt, set_fs (<[dir := <[file := sc]> d]> (fs s)) s).
Proof. intros Hd. unfold write_script. rewrite Hd. reflexivity. Qed.

Lemma compile_Router dir name migrate rollback s :
  let new := format_03 (length (script_names dir s) + 1) ++ "_" ++ name in
  exists s',
    compile (Router dir) name migrate rollback None s = (Ok new, s') /\
    directory dir s' =
      <[new ++ ".py" := MIGRATE_TEMPLATE migrate rollback (new ++ ".py")]>
        (directory dir s) /\
    (forall other, other <> dir -> fs s' !! other = fs s !! other) /\
    database s' = database s /\ sent s' = sent s /\ cache s' = cache s /\
    log s' =
      app (log s) (if bool_decide (is_Some (fs s !! dir)) then []
                   else [(WARNING, "Migration directory: " ++ dir
                                    ++ " does not exist.")]).
Proof.
  intros new. unfold compile. unfold bind at 1. unfold bind at 1.
  rewrite todo_Router. unfold ret at 1. cbv beta iota.
  rewrite length_sorted. fold new.
  case_bool_decide as Hd.
  - destruct Hd as [d Hd]. unfold bind.
    rewrite (write_script_ok dir _ _ s d Hd).
    eexists. split; [reflexivity |]. simpl.
    unfold directory. simpl. rewrite lookup_insert_eq, Hd. simpl.
    repeat split.
    + intros other Hne. apply lookup_insert_ne. congruence.
    + rewrite app_nil_r. reflexivity.
  - assert (Hnone : fs s !! dir = None).
    { destruct (fs s !! dir) eqn:E; [exfalso; apply Hd; eauto | reflexivity]. }
    unfold bind.
    erewrite write_script_ok by (simpl; apply lookup_insert_eq).
    eexists. split; [reflexivity |]. simpl.
    unfold directory. simpl. rewrite lookup_insert_eq, Hnone. simpl.
    repeat split.
    intros other Hne. rewrite insert_insert_eq. apply lookup_insert_ne.
    congruence.
Qed.


Lemma compile_found_again (dir name migrate rollback : string)
  (s s' : state) (new : string) :
  compile (Router dir) name migrate rollback None s = (Ok new, s') ->
  length (script_names dir s) + 1 < 1000 ->
  name <> EmptyString ->
  all_chars (not_char ".") name = true ->
  exists names,
    todo (Router dir) s' = (Ok names, s') /\
    new ∈ names /\
    (forall n, n ∈ script_names dir s -> n ∈ names) /\
    (forall n, n ∈ names -> n = new \/ n ∈ script_names dir s).
Proof.
  intros Hcompile Hnum Hne Hall.
  destruct (compile_Router dir name migrate rollback s)
    as (s1 & Hc & Hdir & _).
  rewrite Hcompile in Hc. injection Hc as -> <-.
  set (new := format_03 (length (script_names dir s) + 1) ++ "_" ++ name)
    in *.
  assert (Hthere : is_Some (fs s' !! dir)).
  { destruct (fs s' !! dir) as [d|] eqn:Hd; [eauto |].
    rewrite (directory_None dir s' Hd) in Hdir.
    pose proof (lookup_insert_eq (directory dir s) (new ++ ".py")
                  (MIGRATE_TEMPLATE migrate rollback (new ++ ".py"))) as Hl.
    rewrite <- Hdir in Hl. rewrite lookup_empty in Hl. discriminate. }
  exists (sorted (script_names dir s')). split.
  { rewrite todo_Router. rewrite bool_decide_eq_true_2 by exact Hthere.
    reflexivity. }
  split; [| split].
  - apply in_sorted. apply in_script_names. exists (new ++ ".py").
    rewrite Hdir, lookup_insert_eq. split; [eauto |]. split.
    + apply compiled_name_matches; assumption.
    + apply drop_last_py.
  - intros n Hn. apply in_sorted. apply in_script_names.
    apply in_script_names in Hn as (f & Hf & Hm & Hdrop).
    exists f. split; [| split; assumption].
    rewrite Hdir. destruct (decide (f = new ++ ".py")) as [-> | Hneq].
    + rewrite lookup_insert_eq. eauto.
    + rewrite lookup_insert_ne by congruence. exact Hf.
  - intros n Hn. apply (proj1 (in_sorted _ _)) in Hn.
    apply (proj1 (in_script_names _ _ _)) in Hn as (f & Hf & Hm & Hdrop).
    rewrite Hdir in Hf. destruct (decide (f = new ++ ".py")) as [-> | Hneq].
    + left. rewrite <- Hdrop. apply drop_last_py.
    + right. rewrite lookup_insert_ne in Hf by congruence.
      apply in_script_names. exists f. split; [| split]; assumption.
Qed.

(** X4. What [compile] wrote is listed at once: when the number is below a
    thousand and the name is not empty and has no dot, [todo] after
    [compile] returns the new name and the names that it listed before, and
    no other. *)
Theorem compiled_script_is_listed (dir name migrate rollback : string)
  (s s' : state) (new : string) :
  compile (Router dir) name migrate rollback None s = (Ok new, s') ->
  length (script_names dir s) + 1 < 1000 ->
  name <> EmptyString ->
  all_chars (not_char ".") name = true ->
  exists names,
    todo (Router dir) s' = (Ok names, s') /\
    forall n, n ∈ names <-> n = new \/ n ∈ script_names dir s.
Proof.
  intros Hcompile Hnum Hne Hall.
  destruct (compile_found_again dir name migrate rollback s s' new Hcompile
              Hnum Hne Hall) as (names & Htodo & Hnew & Hold & Honly).
  exists names. split; [exact Htodo |].
  intros n. split; [apply Honly |].
  intros [-> | Hn]; [exact Hnew | apply Hold; exact Hn].
Qed.

(** ** The cached Migrator, again *)


(** ** A router over a module *)

(** X17. [ModuleRouter] has [read] and nothing else of its own: [todo] and
    [compile] are those of [BaseRouter], which raise
    [NotImplementedError]. So [diff] raises it, and [run], after it logged
    that it starts, raises it too, whatever the module holds: the database
    and the files are as before. *)
Theorem module_router_cannot_run (md : gmap string (script Op))
  (name : option string) (fake : bool) (s : state) :
  todo (ModuleRouter md) s = (Raised NotImplementedError, s) /\
  diff (ModuleRouter md) s = (Raised NotImplementedError, s) /\
  run (ModuleRouter md) name fake s =
    (Raised NotImplementedError,
     set_log (log s ++ [(INFO, "Starting migrations")]) s) /\
  forall n migrate rollback num,
    compile (ModuleRouter md) n migrate rollback num s
      = (Raised NotImplementedError, s).
Proof. repeat split. Qed.

(** X18. [merge] on a [ModuleRouter] that has something to merge clears the
    ledger and then raises [NotImplementedError], from [compile]: the rows
    are gone and no row is written. *)
Theorem module_router_merge_clears_the_ledger (md : gmap string (script Op))
  (name migrate : string) (s s1 : state) (cached : Migrator) :
  migrator (ModuleRouter md) s = (Ok cached, s1) ->
  compile_migrations new_migrator (orm_values (orm cached)) false
    = Some migrate ->
  exists s',
    merge (ModuleRouter md) name s = (Raised NotImplementedError, s') /\
    ledger (database s') = [] /\
    schema (database s') = schema (database s) /\
    sent s' = (sent s ++ [LedgerClear])%list.
Proof.
  intros Hm Hsome.
  destruct (migrator_frame (ModuleRouter md) s) as (_ & Hdb & Hsent).
  rewrite Hm in Hdb, Hsent. simpl in Hdb, Hsent.
  pose proof (migrator_caches _ _ _ _ Hm) as Hc.
  rewrite merge_unfold, Hm, Hsome.
  unfold clear, model_delete. unfold bind at 1. unfold bind at 1.
  unfold logger at 1. unfold bind at 1.
  erewrite migrator_cached by (simpl; exact Hc).
  unfold bind, compile, raise. eexists. split; [reflexivity |]. simpl.
  rewrite Hdb, Hsent. repeat split.
Qed.

(** ** A real [run_one] that returns *)

Lemma send_all_ok qs s s' :
  send_all qs s = (Ok tt, s') ->
  sent s' = (sent s ++ map Query qs)%list /\
  ledger (database s') = ledger (database s) /\
  log s' = log s /\ fs s' = fs s /\ cache s' = cache s.
Proof.
  revert s. induction qs as [|q qs IH]; intros s; simpl.
  - unfold ret. intros Heq. injection Heq as <-.
    rewrite app_nil_r. repeat split.
  - unfold bind. unfold send at 1.
    destruct (execute_sql q (schema (database s))) as [sc|]; [| discriminate].
    intros Hrest. apply IH in Hrest as (Hs & Hl & Hlog & Hfs & Hc).
    simpl in *. rewrite Hs, <- app_assoc. repeat split; assumption.
Qed.

(** For real a body that returns has changed the registry as
    [registry_after] tells, enqueued what its calls enqueue and sent what it
    executes by itself. *)
Lemma run_actions_real acts m s m' s' :
  run_actions false acts (m, s) = (Ok tt, (m', s')) ->
  registry_after acts (orm m) = Some (orm m') /\
  ops m' = (ops m ++ enqueued_by acts)%list /\
  sent s' = (sent s ++ map Query (queries_of acts))%list /\
  ledger (database s') = ledger (database s) /\
  log s' = log s /\ fs s' = fs s /\ cache s' = cache s.
Proof.
  revert m s. induction acts as [|a acts IH]; intros m s; simpl.
  - unfold ret. intros Heq. injection Heq as <- <-.
    rewrite !app_nil_r. repeat split.
  - destruct a as [o | q | e]; simpl.
    + unfold bind, migrator_call.
      destruct (apply_op o (orm m)) as [reg|]; [| discriminate].
      intros Hrest. apply IH in Hrest as (Hr & Ho & Hrest). simpl in Hr, Ho.
      rewrite Ho, <- app_assoc. split; [exact Hr |].
      split; [reflexivity | exact Hrest].
    + unfold bind, world. unfold send.
      destruct (execute_sql q (schema (database s))) as [sc|]; [| discriminate].
      intros Hrest. apply IH in Hrest as (Hr & Ho & Hs & Hl & Hlog & Hfs & Hc).
      simpl in *. rewrite Hs, <- app_assoc. repeat split; assumption.
    + unfold raise. discriminate.
Qed.

Lemma call_real p fake m s m' s' :
  call p fake false (m, s) = (Ok tt, (m', s')) ->
  accepts_fake p = true /\
  run_actions false (body p fake) (m, s) = (Ok tt, (m', s')).
Proof.
  unfold call. destruct (accepts_fake p); [auto |].
  unfold raise. discriminate.
Qed.

Lemma migrator_run_ok m s m' s' :
  migrator_run (m, s) = (Ok tt, (m', s')) ->
  orm m' = orm m /\ ops m' = [] /\
  sent s' = (sent s ++ map Query (ops m))%list /\
  ledger (database s') = ledger (database s) /\
  log s' = log s /\ fs s' = fs s /\ cache s' = cache s.
Proof.
  unfold migrator_run, bind, world, migrator_clean. simpl.
  destruct (send_all (ops m) s) as [[[]|e] s1] eqn:Hsend; [| discriminate].
  intros Heq. injection Heq as <- <-. simpl.
  apply send_all_ok in Hsend. tauto.
Qed.

(** X7. When a real [run_one] returns, the procedure of its direction (the
    forward one, or the reverse one for a downgrade) accepts [fake] and has
    run with [fake=False]. The database was sent, in this order: what the
    procedure executes by itself, what the queue of the Migrator held before
    the call, what the calls of the procedure enqueued, and the insertion
    (or, for a downgrade, the deletion) of the ledger row. The queue is
    empty afterwards, the log has the two records of the run, and the files
    are untouched. [force] plays no part. *)
Theorem real_run_one_sends_in_order (r : router) (name : string)
  (downgrade force : bool) (m m' : Migrator) (s s' : state) :
  run_one r name false downgrade force (m, s) = (Ok tt, (m', s')) ->
  exists migrate rollback,
    read r name s = (Ok (migrate, rollback), s) /\
    let p := if downgrade then rollback else migrate in
    accepts_fake p = true /\
    registry_after (body p false) (orm m) = Some (orm m') /\
    ops m' = [] /\
    sent s' =
      (sent s
       ++ map Query (queries_of (body p false) ++ ops m
                     ++ enqueued_by (body p false))
       ++ [if downgrade then LedgerDelete name else LedgerInsert name])%list /\
    ledger (database s') =
      (if downgrade then filter (fun n => n <> name) (ledger (database s))
       else ledger (database s) ++ [name])%list /\
    log s' =
      app (log s)
        [(INFO, if downgrade then "Rolling back " ++ name
                else "Migrate " ++ dquote ++ name ++ dquote);
         (INFO, "Done " ++ name)] /\
    fs s' = fs s.
Proof.
  rewrite run_one_try_except.
  destruct (run_one_try r name false downgrade force (m, s))
    as [[[]|e] [m1 s1]] eqn:Htry; [| discriminate].
  intros Heq. injection Heq as <- <-.
  revert Htry. unfold run_one_try. unfold bind at 1. unfold world at 1.
  pose proof (read_state r name s) as Hread.
  destruct (read r name s) as [[[migrate rollback]|e] s0] eqn:Hr;
    simpl in Hread; subst s0; [| discriminate].
  unfold transaction.
  match goal with
  | |- context [bind ?c ?k (m, s)] => destruct (bind c k (m, s))
      as [[[]|e] [m2 s2]] eqn:Hbody
  end; [| discriminate].
  intros Heq. injection Heq as <- <-.
  exists migrate, rollback. split; [reflexivity |].
  revert Hbody. destruct downgrade; simpl negb; cbv iota; cbv zeta.
  - unfold bind at 1. unfold bind at 1. unfold world at 1. unfold logger at 1.
    set (s0 := set_log _ s). unfold bind at 1.
    destruct (call rollback false false (m, s0)) as [[[]|e] [m3 s3]] eqn:Hcall;
      [| discriminate].
    apply call_real in Hcall as [Hacc Hacts].
    apply run_actions_real in Hacts as (Hreg & Hops & Hsent & Hl & Hlog & Hfs & _).
    unfold bind at 1.
    destruct (migrator_run (m3, s3)) as [[[]|e] [m4 s4]] eqn:Hrun;
      [| discriminate].
    apply migrator_run_ok in Hrun as (Horm & Hops4 & Hsent4 & Hl4 & Hlog4 & Hfs4 & _).
    unfold bind, world, model_delete_where, logger. simpl.
    intros Heq. injection Heq as <- <-. simpl.
    subst s0. simpl in *.
    split; [exact Hacc |]. split; [congruence |]. split; [exact Hops4 |].
    split.
    { rewrite Hsent4, Hsent, Hops. rewrite !map_app, <- !app_assoc.
      reflexivity. }
    split; [rewrite Hl4, Hl; reflexivity |].
    split; [rewrite Hlog4, Hlog, <- app_assoc; reflexivity |].
    congruence.
  - unfold bind at 1. unfold bind at 1. unfold world at 1. unfold logger at 1.
    set (s0 := set_log _ s). unfold bind at 1.
    destruct (call migrate false false (m, s0)) as [[[]|e] [m3 s3]] eqn:Hcall;
      [| discriminate].
    apply call_real in Hcall as [Hacc Hacts].
    apply run_actions_real in Hacts as (Hreg & Hops & Hsent & Hl & Hlog & Hfs & _).
    unfold bind at 1.
    destruct (migrator_run (m3, s3)) as [[[]|e] [m4 s4]] eqn:Hrun;
      [| discriminate].
    apply migrator_run_ok in Hrun as (Horm & Hops4 & Hsent4 & Hl4 & Hlog4 & Hfs4 & _).
    unfold bind, world, model_create, logger. simpl.
    intros Heq. injection Heq as <- <-. simpl.
    subst s0. simpl in *.
    split; [exact Hacc |]. split; [congruence |]. split; [exact Hops4 |].
    split.
    { rewrite Hsent4, Hsent, Hops. rewrite !map_app, <- !app_assoc.
      reflexivity. }
    split; [rewrite Hl4, Hl; reflexivity |].
    split; [rewrite Hlog4, Hlog, <- app_assoc; reflexivity |].
    congruence.
Qed.

(** ** [run] in fake mode *)

Lemma no_new_query_refl s : no_new_query s s.
Proof. split; auto. Qed.

Lemma no_new_query_trans s1 s2 s3 :
  no_new_query s1 s2 -> no_new_query s2 s3 -> no_new_query s1 s3.
Proof. intros [H1 H2] [H3 H4]. split; [congruence | auto]. Qed.

Lemma same_database_no_new_query s s' :
  database s' = database s -> sent s' = sent s -> no_new_query s s'.
Proof. intros Hdb Hs. split; [rewrite Hdb; reflexivity | rewrite Hs; auto]. Qed.

(** A fake [run_one] sends no statement of a migration. *)
Lemma run_one_fake_no_query r name downgrade force m s :
  no_new_query s (snd (snd (run_one r name true downgrade force (m, s)))).
Proof.
  destruct (run_one_fake r name downgrade force m s)
    as (res & m' & s' & Hrun & _ & _ & Hschema & Hres).
  rewrite Hrun. simpl. split; [exact Hschema |].
  intros q Hq. destruct res as [[]|e].
  - destruct Hres as (? & ? & _ & _ & _ & _ & _ & Hs & _).
    rewrite Hs in Hq. apply elem_of_app in Hq as [Hq | Hq]; [exact Hq |].
    destruct force; simpl in Hq.
    + apply list_elem_of_singleton in Hq. discriminate.
    + apply elem_of_nil in Hq. destruct Hq.
  - destruct Hres as (_ & Hs & _). rewrite Hs in Hq. exact Hq.
Qed.

Lemma run_loop_fake_no_query r name pending acc m s :
  no_new_query s (snd (snd (run_loop r name true pending acc (m, s)))).
Proof.
  revert acc m s. induction pending as [|mname pending IH]; intros acc m s.
  - apply no_new_query_refl.
  - simpl. unfold bind.
    pose proof (run_one_fake_no_query r mname false true m s) as H1.
    destruct (run_one r mname true false true (m, s)) as [[[]|e] [m1 s1]];
      simpl in H1; [| exact H1].
    destruct (is_target name mname); [exact H1 |].
    eapply no_new_query_trans; [exact H1 | apply IH].
Qed.

(** X8. [run] with [fake=True] sends the database no statement of a migration
    and leaves the schema as it is, whether it returns or raises; when it
    returns, the ledger has got the names it returns, in order. *)
Theorem fake_run_sends_no_query (r : router) (name : option string)
  (s : state) :
  schema (database (snd (run r name true s))) = schema (database s) /\
  (forall q, Query q ∈ sent (snd (run r name true s)) -> Query q ∈ sent s) /\
  match fst (run r name true s) with
  | Ok applied =>
      ledger (database (snd (run r name true s)))
        = (ledger (database s) ++ applied)%list
  | Raised _ => True
  end.
Proof.
  rewrite run_unfold.
  set (s0 := set_log _ s).
  destruct (diff_frame r s0) as (Hdb & Hsent & _).
  destruct (diff r s0) as [[pending|e] s1]; simpl in Hdb, Hsent.
  2:{ simpl. rewrite Hdb, Hsent. repeat split; auto. }
  case_bool_decide as Hp.
  - simpl. rewrite Hdb, Hsent, app_nil_r. repeat split; auto.
  - destruct (migrator_frame r s1) as (_ & Hmdb & Hmsent).
    destruct (migrator r s1) as [[m|e] s2]; simpl in Hmdb, Hmsent.
    2:{ simpl. rewrite Hmdb, Hmsent, Hdb, Hsent. repeat split; auto. }
    unfold on_object.
    pose proof (run_loop_fake_no_query r name pending [] m s2) as [Hsch Hq].
    destruct (run_loop_spec r name true pending [] m s2)
      as (res & m' & s' & applied & Hloop & _ & Hl & Hres).
    rewrite Hloop in *. simpl in *.
    split; [rewrite Hsch, Hmdb, Hdb; reflexivity |].
    split.
    + intros q Hin. apply Hq in Hin. rewrite Hmsent, Hsent in Hin. exact Hin.
    + destruct res as [l|e]; [| exact I].
      destruct Hres as [_ ->]. rewrite Hl, Hmdb, Hdb. reflexivity.
Qed.

(** ** [run], and [run] again *)

Lemma up_to_target_None (pending : list string) :
  up_to_target None pending = pending.
Proof.
  induction pending as [|n pending IH]; simpl; [reflexivity |].
  now rewrite IH.
Qed.

Lemma diff_Router dir s :
  is_Some (fs s !! dir) ->
  diff (Router dir) s =
    (Ok (filter (fun n => n ∉ ledger (database s))
           (sorted (script_names dir s))), s).
Proof.
  intros Hd. unfold diff, bind, done, ret. rewrite todo_Router.
  rewrite bool_decide_eq_true_2 by exact Hd.
  rewrite filter_not_in_done. reflexivity.
Qed.

Lemma filter_nothing (P : string -> Prop) `{forall n, Decision (P n)}
  (names : list string) :
  (forall n, n ∈ names -> ~ P n) -> filter P names = [].
Proof.
  induction names as [|n names IH]; intros Hall; [reflexivity |].
  rewrite filter_cons. rewrite decide_False.
  - apply IH. intros n' Hn'. apply Hall. apply list_elem_of_further.
    exact Hn'.
  - apply Hall. apply list_elem_of_here.
Qed.

Lemma filter_filter_out (l names : list string) :
  filter (fun n => n ∉ (l ++ filter (fun n => n ∉ l) names)%list) names = [].
Proof.
  apply filter_nothing. intros n Hn Hout.
  apply Hout. destruct (decide (n ∈ l)) as [Hl | Hl].
  - apply elem_of_app. left. exact Hl.
  - apply elem_of_app. right. apply list_elem_of_filter. auto.
Qed.

(** X9. After a [run] without a target that returns, nothing is pending: [diff]
    is empty, and a second [run] returns the empty list, having logged its
    two records and changed nothing else. *)
Theorem run_leaves_nothing_pending (dir : string) (fake : bool)
  (s s' : state) (applied : list string) :
  run (Router dir) None fake s = (Ok applied, s') ->
  diff (Router dir) s' = (Ok [], s') /\
  run (Router dir) None fake s' =
    (Ok [],
     set_log (log s' ++ [(INFO, "Starting migrations");
                         (INFO, "There is nothing to migrate")]) s').
Proof.
  intros Hrun.
  assert (Hdiff : is_Some (fs s' !! dir) /\
                  filter (fun n => n ∉ ledger (database s'))
                    (sorted (script_names dir s')) = []).
  { revert Hrun. rewrite run_unfold.
    set (s0 := set_log _ s).
    unfold diff at 1. unfold bind at 1. unfold done at 1.
    unfold bind at 1. rewrite todo_Router. unfold ret at 1.
    rewrite filter_not_in_done.
    change (ledger (database s0)) with (ledger (database s)).
    change (script_names dir s0) with (script_names dir s).
    change (fs s0) with (fs s).
    destruct (decide (is_Some (fs s !! dir))) as [Hd | Hd].
    - (* the directory is there *)
      rewrite (bool_decide_eq_true_2 (is_Some (fs s !! dir)) Hd).
      case_bool_decide as Hp.
      + intros Heq. injection Heq as <- <-. simpl. split; [exact Hd |].
        exact Hp.
      + destruct (migrator_frame (Router dir) s0) as (Hmfs & Hmdb & _).
        destruct (migrator (Router dir) s0) as [[m|e] s2];
          simpl in Hmfs, Hmdb; [| discriminate].
        unfold on_object.
        destruct (run_loop_spec (Router dir) None fake
                    (filter (fun n => n ∉ ledger (database s))
                       (sorted (script_names dir s))) [] m s2)
          as (res & m' & s3 & done_now & Hloop & Hfs3 & Hl3 & Hres).
        rewrite Hloop. intros Heq. injection Heq as -> <-.
        destruct Hres as [-> _]. rewrite up_to_target_None in Hl3.
        simpl. rewrite Hfs3, Hmfs. split; [exact Hd |].
        rewrite (script_names_fs dir s (set_cache (Some m') s3))
          by (simpl; rewrite Hfs3, Hmfs; reflexivity).
        simpl. rewrite Hl3, Hmdb. apply filter_filter_out.
    - (* the directory was missing: [todo] made it, empty *)
      assert (Hnone : fs s !! dir = None).
      { destruct (fs s !! dir) eqn:E; [exfalso; apply Hd; eauto | reflexivity]. }
      assert (Hnames : script_names dir s = []).
      { unfold script_names, listing. rewrite Hnone. reflexivity. }
      rewrite (bool_decide_eq_false_2 (is_Some (fs s !! dir)) Hd).
      rewrite Hnames. simpl.
      intros Heq. injection Heq as <- <-. simpl.
      rewrite lookup_insert_eq. split; [eauto |].
      unfold script_names, listing. simpl. rewrite lookup_insert_eq.
      rewrite map_to_list_empty. reflexivity. }
  destruct Hdiff as [Hd Hnil].
  assert (Hdiff' : forall s1, fs s1 = fs s' -> database s1 = database s' ->
                     diff (Router dir) s1 = (Ok [], s1)).
  { intros s1 Hfs Hdb. rewrite diff_Router by (rewrite Hfs; exact Hd).
    rewrite (script_names_fs dir s' s1) by (rewrite Hfs; reflexivity).
    rewrite Hdb, Hnil. reflexivity. }
  split; [apply Hdiff'; reflexivity |].
  rewrite run_unfold. rewrite Hdiff' by reflexivity.
  rewrite bool_decide_eq_true_2 by reflexivity.
  simpl. rewrite <- app_assoc. reflexivity.
Qed.

(** ** [rollback], and what is pending after it *)

(** X11. After a [rollback] that returns, the name it was given, stripped, was the
    last of the ledger and is no longer in it, the files are untouched, and,
    when its script is in the directory, [diff] lists it again. *)
Theorem rollback_makes_it_pending_again (dir name : string) (s s' : state) :
  rollback (Router dir) name s = (Ok tt, s') ->
  last (ledger (database s)) = Some (strip name) /\
  ledger (database s') =
    filter (fun n => n <> strip name) (ledger (database s)) /\
  fs s' = fs s /\
  (strip name ∈ script_names dir s ->
   exists pending,
     diff (Router dir) s' = (Ok pending, s') /\ strip name ∈ pending).
Proof.
  unfold rollback. unfold bind at 1. unfold done at 1.
  case_bool_decide as Hnil; [discriminate |].
  case_bool_decide as Hlast; [discriminate |].
  symmetry in Hlast.
  intros Hrun.
  pose proof (downgrade_on_migrator (Router dir) (strip name)
                ("Downgraded migration: " ++ strip name) s) as Hdown.
  cbv zeta in Hdown. rewrite Hrun in Hdown. simpl in Hdown.
  destruct Hdown as [Hfs Hl].
  split; [exact Hlast |]. split; [exact Hl |]. split; [exact Hfs |].
  intros Hin.
  assert (Hd : is_Some (fs s' !! dir)).
  { rewrite Hfs. unfold script_names, listing in Hin.
    destruct (fs s !! dir); [eauto |].
    apply elem_of_nil in Hin. destruct Hin. }
  eexists. split; [apply (diff_Router dir s' Hd) |].
  apply list_elem_of_filter. split.
  - rewrite Hl. intros Hc. apply list_elem_of_filter in Hc as [Hc _].
    apply Hc. reflexivity.
  - apply in_sorted.
    rewrite (script_names_fs dir s s') by (rewrite Hfs; reflexivity).
    exact Hin.
Qed.

(** ** [create] *)

Lemma same_database_refl s : same_database s s.
Proof. split; reflexivity. Qed.

Lemma same_database_trans s1 s2 s3 :
  same_database s1 s2 -> same_database s2 s3 -> same_database s1 s3.
Proof. intros [? ?] [? ?]. split; congruence. Qed.

Lemma same_files_refl s : same_files s s.
Proof. intros d. reflexivity. Qed.

Lemma same_files_trans s1 s2 s3 :
  same_files s1 s2 -> same_files s2 s3 -> same_files s1 s3.
Proof. intros H12 H23 d. rewrite H23. apply H12. Qed.

Lemma same_files_fs s s' : fs s' = fs s -> same_files s s'.
Proof. intros Hfs d. unfold directory. rewrite Hfs. reflexivity. Qed.

(** [diff] leaves the database alone and no file changes. *)
Lemma diff_same r s :
  same_database s (snd (diff r s)) /\ same_files s (snd (diff r s)).
Proof.
  destruct (diff_frame r s) as (Hdb & Hsent & _).
  split; [split; assumption |].
  unfold diff, bind, done, ret. destruct r as [dir | md].
  - rewrite todo_Router. simpl. case_bool_decide as Hd.
    + apply same_files_refl.
    + intros d. unfold directory. simpl.
      destruct (decide (d = dir)) as [-> | Hne].
      * rewrite lookup_insert_eq.
        destruct (fs s !! dir) eqn:E; [exfalso; apply Hd; eauto |].
        reflexivity.
      * rewrite lookup_insert_ne by congruence. reflexivity.
  - simpl. apply same_files_refl.
Qed.

(** One step of the loop of [create]: a fake run on the router's Migrator. *)
Lemma emulate_step r n s :
  same_database s
    (snd ((let* migrator := migrator r in
           on_object migrator (run_one r n true false false)) s)) /\
  fs (snd ((let* migrator := migrator r in
            on_object migrator (run_one r n true false false)) s)) = fs s.
Proof.
  unfold bind. destruct (migrator_frame r s) as (Hfs & Hdb & Hsent).
  destruct (migrator r s) as [[m|e] s1]; simpl in Hfs, Hdb, Hsent.
  - unfold on_object.
    pose proof (run_one_fake_unforced r n false m s1)
      as (Hfs2 & Hdb2 & Hsent2 & _).
    destruct (run_one r n true false false (m, s1)) as [res [m' s2]].
    simpl in *. split; [split |]; simpl; congruence.
  - simpl. split; [split |]; assumption.
Qed.

Lemma emulate_cons r n pending s :
  emulate r (n :: pending) s =
    ((let* migrator := migrator r in
      on_object migrator (run_one r n true false false)) >>
     emulate r pending) s.
Proof.
  cbn [emulate]. unfold bind.
  destruct (migrator r s) as [[m|e] s1]; reflexivity.
Qed.

Lemma emulate_frame r pending s :
  same_database s (snd (emulate r pending s)) /\
  fs (snd (emulate r pending s)) = fs s.
Proof.
  revert s. induction pending as [|n pending IH]; intros s.
  - simpl. split; [apply same_database_refl | reflexivity].
  - rewrite emulate_cons.
    pose proof (emulate_step r n s) as [Hdb Hfs].
    set (step := let* migrator := migrator r in
                 on_object migrator (run_one r n true false false)) in *.
    unfold bind.
    destruct (step s) as [[[]|e] s1]; simpl in Hdb, Hfs.
    + destruct (IH s1) as [Hdb' Hfs']. split.
      * eapply same_database_trans; eassumption.
      * rewrite Hfs'. exact Hfs.
    + simpl. split; assumption.
Qed.






(** ** What [create] writes *)

Lemma listing_directory dir s :
  listing dir s = map fst (map_to_list (directory dir s)).
Proof.
  unfold listing, directory. destruct (fs s !! dir); simpl; [reflexivity |].
  rewrite map_to_list_empty. reflexivity.
Qed.

Lemma script_names_same_files dir s s' :
  same_files s s' -> script_names dir s' = script_names dir s.
Proof.
  intros Hsame. unfold script_names. rewrite !listing_directory, Hsame.
  reflexivity.
Qed.

Lemma same_files_log s l : same_files s (set_log l s).
Proof. intros d. reflexivity. Qed.

Lemma create_script_files dir name migrate rollback s res s' :
  create_script (Router dir) name migrate rollback s = (Ok res, s') ->
  let new := format_03 (length (script_names dir s) + 1) ++ "_" ++ name in
  res = Some new /\
  directory dir s' =
    <[new ++ ".py" := MIGRATE_TEMPLATE migrate rollback (new ++ ".py")]>
      (directory dir s) /\
  forall d, d <> dir -> directory d s' = directory d s.
Proof.
  intros Hrun new. revert Hrun.
  unfold create_script. unfold bind at 1. unfold logger at 1.
  set (s0 := set_log _ s).
  destruct (compile_Router dir name migrate rollback s0)
    as (s1 & Hc & Hdir & Hother & _).
  change (script_names dir s0) with (script_names dir s) in Hc, Hdir.
  fold new in Hc, Hdir.
  unfold bind at 1. rewrite Hc. unfold bind, logger, ret.
  intros Heq. injection Heq as <- <-.
  split; [reflexivity |]. split; [exact Hdir |].
  intros d Hne. unfold directory. simpl. rewrite (Hother d Hne). reflexivity.
Qed.

Lemma create_auto_files meta_name ignore dir name models s res s' :
  create_auto meta_name ignore (Router dir) name models s = (Ok res, s') ->
  match res with
  | None => same_files s s'
  | Some new =>
      new = format_03 (length (script_names dir s) + 1) ++ "_" ++ name /\
      exists migrate rollback,
        directory dir s' =
          <[new ++ ".py" := MIGRATE_TEMPLATE migrate rollback (new ++ ".py")]>
            (directory dir s) /\
        forall d, d <> dir -> directory d s' = directory d s
  end.
Proof.
  unfold create_auto. unfold bind at 1.
  pose proof (diff_same (Router dir) s) as [_ Hd].
  destruct (diff (Router dir) s) as [[pending|e] s1]; simpl in Hd;
    [| discriminate].
  unfold bind at 1.
  pose proof (emulate_frame (Router dir) pending s1) as [_ He].
  destruct (emulate (Router dir) pending s1) as [[[]|e] s2]; simpl in He;
    [| discriminate].
  unfold bind at 1.
  destruct (migrator_frame (Router dir) s2) as (Hm & _).
  destruct (migrator (Router dir) s2) as [[m1|e] s3]; simpl in Hm;
    [| discriminate].
  assert (H3 : same_files s s3).
  { eapply same_files_trans; [exact Hd |]. apply same_files_fs. congruence. }
  destruct (compile_migrations m1 _ false) as [migrate|].
  - unfold bind at 1.
    destruct (migrator_frame (Router dir) s3) as (Hm4 & _).
    destruct (migrator (Router dir) s3) as [[m2|e] s4]; simpl in Hm4;
      [| discriminate].
    assert (H4 : same_files s s4).
    { eapply same_files_trans; [exact H3 |]. apply same_files_fs. exact Hm4. }
    intros Hrun. apply create_script_files in Hrun as (-> & Hdir & Hother).
    rewrite (script_names_same_files dir s s4 H4) in *.
    split; [reflexivity |]. eexists _, _. split.
    + rewrite Hdir, H4. reflexivity.
    + intros d Hne. rewrite (Hother d Hne). apply H4.
  - unfold bind, logger, ret. intros Heq. injection Heq as <- <-.
    eapply same_files_trans; [exact H3 |]. apply same_files_log.
Qed.

(** X14. When [create] on a file router returns a name, it is
    [NNN_<name>], [NNN] being the number of scripts of the directory plus
    one, and the one change to the files is the script [NNN_<name>.py],
    made from the template. When it returns [None] (no change found, or the
    models could not be imported), no file has appeared, gone or
    changed. *)
Theorem create_writes_one_script_or_none (meta_name : Model -> string)
  (ignore : list string) (dir name : string) (auto : auto_arg)
  (s s' : state) (res : option string) :
  create meta_name ignore (Router dir) name auto s = (Ok res, s') ->
  match res with
  | None => same_files s s'
  | Some new =>
      new = format_03 (length (script_names dir s) + 1) ++ "_" ++ name /\
      exists migrate rollback,
        directory dir s' =
          <[new ++ ".py" := MIGRATE_TEMPLATE migrate rollback (new ++ ".py")]>
            (directory dir s) /\
        forall d, d <> dir -> directory d s' = directory d s
  end.
Proof.
  unfold create.
  assert (Hscript : forall migrate rollback,
    create_script (Router dir) name migrate rollback s = (Ok res, s') ->
    match res with
    | None => same_files s s'
    | Some new =>
        new = format_03 (length (script_names dir s) + 1) ++ "_" ++ name /\
        exists migrate rollback,
          directory dir s' =
            <[new ++ ".py" := MIGRATE_TEMPLATE migrate rollback (new ++ ".py")]>
              (directory dir s) /\
          forall d, d <> dir -> directory d s' = directory d s
    end).
  { intros migrate rollback Hrun.
    apply create_script_files in Hrun as (-> & Hdir & Hother).
    split; [reflexivity |]. eexists _, _. split; [exact Hdir | exact Hother]. }
  destruct auto as [| [|model models] | what [models | msg]].
  - apply Hscript.
  - apply Hscript.
  - apply create_auto_files.
  - apply create_auto_files.
  - unfold bind, logger, ret. intros Heq. injection Heq as <- <-.
    intros d. reflexivity.
Qed.

(** ** Scripts whose name ends in [tg_bot] *)

(** X16. [Router.read] looks for a script whose name ends in [tg_bot] in the
    directory of the migrations of the package, whatever the directory of
    the router is. When the package has no such script, [run_one] of that
    name raises [FileNotFoundError], also when the directory of the router
    holds the script; it has logged the failure and changed nothing else. *)
Theorem package_scripts_are_read_from_the_package (dir name : string)
  (fake downgrade force : bool) (m : Migrator) (s : state) :
  endswith name "tg_bot" = true ->
  (forall dir', read (Router dir') name s = read (Router dir) name s) /\
  (fs s !! package_migrations ≫= (fun d => d !! (name ++ ".py")) = None ->
   run_one (Router dir) name fake downgrade force (m, s) =
     (Raised (FileNotFoundError package_migrations (name ++ ".py")),
      (m, set_log (log s ++ [failure_record name downgrade]) s))).
Proof.
  intros Hend. split.
  - intros dir'. unfold read. rewrite Hend. reflexivity.
  - intros Hnone. rewrite run_one_try_except.
    unfold run_one_try. unfold bind at 1. unfold world at 1.
    unfold read. rewrite Hend. simpl negb. cbv iota.
    unfold bind, open_script. rewrite Hnone. reflexivity.
Qed.

(** ** [create], and [todo] after it *)

Lemma todo_same_files dir s s' names :
  todo (Router dir) s = (Ok names, s) ->
  is_Some (fs s !! dir) ->
  fs s' = fs s ->
  todo (Router dir) s' = (Ok names, s').
Proof.
  intros Htodo Hd Hfs. rewrite todo_Router in *.
  rewrite bool_decide_eq_true_2 in Htodo by exact Hd.
  rewrite bool_decide_eq_true_2 by (rewrite Hfs; exact Hd).
  injection Htodo as <-.
  rewrite (script_names_fs dir s s') by (rewrite Hfs; reflexivity).
  reflexivity.
Qed.

(** X15. The script that [create] writes without [auto] is listed by [todo]
    right away, beside the scripts that were there, when its number is below
    a thousand and its name is not empty and has no dot. *)
Theorem create_is_listed_by_todo (meta_name : Model -> string)
  (ignore : list string) (dir name : string) (s : state) :
  length (script_names dir s) + 1 < 1000 ->
  name <> EmptyString ->
  all_chars (not_char ".") name = true ->
  let new := format_03 (length (script_names dir s) + 1) ++ "_" ++ name in
  exists s' names,
    create meta_name ignore (Router dir) name NoAuto s = (Ok (Some new), s') /\
    todo (Router dir) s' = (Ok names, s') /\
    new ∈ names /\
    forall n, n ∈ script_names dir s -> n ∈ names.
Proof.
  intros Hnum Hne Hall new.
  unfold create, create_script. unfold bind at 1. unfold logger at 1.
  set (s0 := set_log _ s).
  destruct (compile_Router dir name EmptyString EmptyString s0)
    as (s1 & Hc & Hdir & _).
  change (script_names dir s0) with (script_names dir s) in Hc, Hdir.
  fold new in Hc, Hdir.
  destruct (compile_found_again dir name EmptyString EmptyString s0 s1 new Hc
              Hnum Hne Hall) as (names & Htodo & Hnew & Hold & _).
  unfold bind at 1. rewrite Hc. unfold bind, logger, ret.
  eexists _, names. split; [reflexivity |].
  assert (Hd : is_Some (fs s1 !! dir)).
  { destruct (fs s1 !! dir) as [d|] eqn:Hd; [eauto |].
    rewrite (directory_None dir s1 Hd) in Hdir.
    pose proof (lookup_insert_eq (directory dir s0) (new ++ ".py")
                  (MIGRATE_TEMPLATE EmptyString EmptyString (new ++ ".py")))
      as Hl.
    rewrite <- Hdir in Hl. rewrite lookup_empty in Hl. discriminate. }
  split; [| split; [exact Hnew | exact Hold]].
  apply (todo_same_files dir s1 _ names Htodo Hd). reflexivity.
Qed.

(** ** The thousandth script *)

Lemma append_assoc (a b c : string) : (a ++ b) ++ c = a ++ (b ++ c).
Proof.
  induction a as [|x a IH]; [reflexivity |].
  change (String x ((a ++ b) ++ c) = String x (a ++ b ++ c)).
  rewrite IH. reflexivity.
Qed.

(** Writing a file that does not match [filemask] leaves the script names
    as they are, up to their order in the listing. *)
Lemma script_names_insert_other dir s s' f sc :
  directory dir s' = <[f := sc]> (directory dir s) ->
  re_match filemask f = false ->
  script_names dir s' ≡ₚ script_names dir s.
Proof.
  intros Hdir Hf. unfold script_names. rewrite !listing_directory, Hdir.
  apply Permutation_map.
  assert (Hdrop : forall l : list (string * script Op),
            filter (fun f => re_match filemask f = true) (map fst ((f, sc) :: l))
            = filter (fun f => re_match filemask f = true) (map fst l)).
  { intros l. simpl. rewrite filter_cons, decide_False; [reflexivity |].
    simpl. rewrite Hf. discriminate. }
  destruct (directory dir s !! f) as [sc0|] eqn:Hlook.
  - rewrite <- (insert_delete_eq (directory dir s)).
    rewrite (map_to_list_insert (delete f (directory dir s)))
      by apply lookup_delete_eq.
    rewrite <- (map_to_list_delete (directory dir s) f sc0 Hlook).
    rewrite Hdrop. simpl. rewrite filter_cons, decide_False; [reflexivity |].
    simpl. rewrite Hf. discriminate.
  - rewrite (map_to_list_insert (directory dir s)) by exact Hlook.
    rewrite Hdrop. reflexivity.
Qed.

(** X5. With 999 scripts or more in the directory, [compile] still returns and
    writes its file, but under a number of four digits or more: the file
    does not match [filemask], so the names that [todo] lists afterwards are
    the names of before, and the next [compile] takes the same number
    again. *)
Theorem compile_past_999_is_not_listed (dir name migrate rollback : string)
  (s : state) :
  999 <= length (script_names dir s) ->
  exists new s',
    compile (Router dir) name migrate rollback None s = (Ok new, s') /\
    directory dir s' !! (new ++ ".py")
      = Some (MIGRATE_TEMPLATE migrate rollback (new ++ ".py")) /\
    re_match filemask (new ++ ".py") = false /\
    script_names dir s' ≡ₚ script_names dir s /\
    length (script_names dir s') = length (script_names dir s).
Proof.
  intros Hmany.
  destruct (compile_Router dir name migrate rollback s)
    as (s' & Hc & Hdir & _).
  set (new := format_03 (length (script_names dir s) + 1) ++ "_" ++ name)
    in *.
  assert (Hno : re_match filemask (new ++ ".py") = false).
  { unfold new. rewrite append_assoc. apply large_number_no_match. lia. }
  pose proof (script_names_insert_other dir s s' _ _ Hdir Hno) as Hperm.
  exists new, s'. split; [exact Hc |].
  split; [rewrite Hdir; apply lookup_insert_eq |].
  split; [exact Hno |]. split; [exact Hperm |].
  apply Permutation_length. exact Hperm.
Qed.

(** ** A target that is not pending *)

Lemma run_loop_no_target r target fake pending acc st :
  (target = EmptyString \/ target ∉ pending) ->
  run_loop r (Some target) fake pending acc st
    = run_loop r None fake pending acc st.
Proof.
  revert acc st. induction pending as [|mname pending IH]; intros acc st Hno.
  - reflexivity.
  - cbn [run_loop]. unfold bind.
    destruct (run_one r mname fake false fake st) as [[[]|e] st1];
      [| reflexivity].
    assert (Ht : is_target (Some target) mname = false).
    { unfold is_target. destruct Hno as [-> | Hno]; [reflexivity |].
      rewrite (bool_decide_eq_false_2 (target = mname)).
      - apply andb_false_r.
      - intros ->. apply Hno. apply list_elem_of_here. }
    rewrite Ht. simpl is_target. cbv iota. apply IH.
    destruct Hno as [-> | Hno]; [left; reflexivity | right].
    intros Hin. apply Hno. apply list_elem_of_further. exact Hin.
Qed.

(** X10. [run] given a target that is the empty string, that names no script of
    the directory or that is in the ledger already does what [run] without
    a target does: the loop never meets the target, and every pending
    migration is applied. *)
Theorem run_ignores_a_target_that_is_not_pending (dir target : string)
  (fake : bool) (s : state) :
  target = EmptyString \/ target ∉ script_names dir s
    \/ target ∈ ledger (database s) ->
  run (Router dir) (Some target) fake s = run (Router dir) None fake s.
Proof.
  intros Hno. rewrite !run_unfold.
  set (s0 := set_log _ s).
  unfold diff. unfold bind at 1 3. unfold done at 1 2.
  unfold bind at 1 2. rewrite todo_Router. unfold ret at 1 2.
  rewrite filter_not_in_done.
  change (ledger (database s0)) with (ledger (database s)).
  change (script_names dir s0) with (script_names dir s).
  set (pending := filter (fun n => n ∉ ledger (database s))
                    (sorted (script_names dir s))).
  set (s1 := if bool_decide (is_Some (fs s0 !! dir)) then s0 else _).
  destruct (bool_decide (pending = [])); [reflexivity |].
  destruct (migrator (Router dir) s1) as [[m|e] s2]; [| reflexivity].
  unfold on_object. rewrite run_loop_no_target; [reflexivity |].
  destruct Hno as [-> | [Hno | Hno]]; [left; reflexivity | right | right];
    intros Hin; apply list_elem_of_filter in Hin as [Hout Hin].
  - apply Hno. apply in_sorted. exact Hin.
  - contradiction.
Qed.
End RouterProperties.

(** * The properties on the example backend *)

(** The Migrator that the replay of [001_a] and [002_b] builds. *)
Lemma migrator_of_state2 :
  migrator the_router state2 =
    (Ok {| orm := ["b"]; ops := [] |},
     set_cache (Some {| orm := ["b"]; ops := [] |}) state2).
Proof. vm_compute. reflexivity. Qed.

(** With nothing applied the Migrator is a new one. *)
Lemma migrator_of_state0 :
  migrator the_router state0 =
    (Ok new_migrator, set_cache (Some new_migrator) state0).
Proof. vm_compute. reflexivity. Qed.

(** A first [run] on three scripts applies two of them and fails on the
    third; the router keeps the Migrator with what the third left in it. *)
Lemma run_fails_on_the_third :
  let out := run the_router None false state3 in
  fst out = Raised (DatabaseError "FAIL") /\
  ledger (database (snd out)) = ["001_a"; "002_b"] /\
  cache (snd out)
    = Some {| orm := ["b"; "c"]; ops := ["CREATE TABLE c"; "FAIL"] |}.
Proof. vm_compute. repeat split. Qed.

(** C2, refuted as stated. After the failed [run] above, a second [run] does
    not replay the ledger on a new Migrator: it raises the error of the
    registry that still holds the table [c], where the replay would reach
    the database and raise its error. The same shows on a router whose
    Migrator was built before [001_a] got into the ledger: [run] raises
    where the replay lets [002_b] be applied. *)
Lemma run_does_not_replay_done :
  (let s := snd (run the_router None false state3) in
   fst (run the_router None false s) = Raised MigratorError /\
   fst (run_replaying the_router None false s)
     = Raised (DatabaseError "FAIL")) /\
  fst (run the_router None false state_stale) = Raised MigratorError /\
  fst (run_replaying the_router None false state_stale) = Ok ["002_b"].
Proof. vm_compute. repeat split. Qed.

(** What the failure of [003_c] leaves in the log. *)
Lemma log_of_failed_003 :
  log (snd (snd (run_one the_router "003_c" false false false
                   (new_migrator, state3))))
  = [(INFO, "Migrate " ++ dquote ++ "003_c" ++ dquote);
     (EXCEPTION, "Migration failed: 003_c")].
Proof. vm_compute. reflexivity. Qed.

(** C3, refuted as stated. The forward run of [003_c] raises the error of
    the database; the record of the failure reads [Migration failed:
    003_c], in which [Migrate] does not occur, and the only record with
    [Migrate] in it is the one that announces the run, at level [INFO]. *)
Lemma failure_is_not_tagged_Migrate :
  let out := run_one the_router "003_c" false false false
               (new_migrator, state3) in
  fst out = Raised (DatabaseError "FAIL") /\
  last (log (snd (snd out))) = Some (EXCEPTION, "Migration failed: 003_c") /\
  contains "Migrate" "Migration failed: 003_c" = false /\
  forall lvl msg,
    (lvl, msg) ∈ log (snd (snd out)) ->
    contains "Migrate" msg = true -> lvl = INFO.
Proof.
  cbv zeta. rewrite log_of_failed_003.
  split; [vm_compute; reflexivity |].
  split; [reflexivity |]. split; [vm_compute; reflexivity |].
  intros lvl msg Hin Hc.
  apply elem_of_cons in Hin as [Heq | Hin].
  - congruence.
  - apply list_elem_of_singleton in Hin. injection Hin as -> ->.
    vm_compute in Hc. discriminate.
Qed.

(** The theorem of C3 at the failure of [003_c]. *)
Lemma real_run_one_failure_is_rolled_back_witness :
  let out := run_one the_router "003_c" false false false
               (new_migrator, state3) in
  fst out = Raised (DatabaseError "FAIL") /\
  ledger (database (snd (snd out))) = [] /\
  schema (database (snd (snd out))) = [] /\
  fs (snd (snd out)) = fs state3 /\
  last (log (snd (snd out))) = Some (EXCEPTION, "Migration failed: 003_c").
Proof.
  cbv zeta.
  destruct (run_one the_router "003_c" false false false
              (new_migrator, state3)) as [res [m' s']] eqn:Hrun.
  assert (Hres : res = Raised (DatabaseError "FAIL")).
  { change res with (fst (res, (m', s'))). rewrite <- Hrun.
    vm_compute. reflexivity. }
  subst res. simpl.
  destruct (real_run_one_failure_is_rolled_back the_router "003_c" false
              false new_migrator m' state3 s' (DatabaseError "FAIL") Hrun)
    as (_ & Hl & Hs & Hfs & Hlog).
  repeat split; assumption.
Defined.

(** C4, refuted as stated. The name [" 001_a"], with a space in front, is
    not the last name of the ledger, [001_a]; yet [rollback] does not fail:
    it runs the reverse procedure of [001_a] and deletes its row. *)
Lemma rollback_strips_the_name :
  " 001_a" <> "001_a" /\
  last (ledger (database state1)) = Some "001_a" /\
  fst (rollback the_router " 001_a" state1) = Ok tt /\
  ledger (database (snd (rollback the_router " 001_a" state1))) = [] /\
  schema (database (snd (rollback the_router " 001_a" state1)))
    = ["DROP TABLE a"].
Proof. split; [discriminate |]. vm_compute. repeat split. Qed.

(** The theorem of C4 on the ledger of [001_a]: the name [002_b] is refused
    and the state kept; the name [001_a] followed by a newline is stripped
    and rolled back. *)
Lemma rollback_only_the_last_witness :
  last (ledger (database state1)) = Some "001_a" /\
  rollback the_router "002_b" state1 =
    (Raised (RuntimeError "Only last migration can be canceled."), state1) /\
  fs (snd (rollback the_router ("001_a" ++ str1 (chr 10)) state1))
    = fs state1 /\
  ledger (database (snd (rollback the_router ("001_a" ++ str1 (chr 10))
                           state1))) = [].
Proof.
  assert (Hlast : last (ledger (database state1)) = Some "001_a")
    by reflexivity.
  split; [exact Hlast |]. split.
  - apply (rollback_only_the_last the_router "002_b" "001_a" state1 Hlast).
    vm_compute. discriminate.
  - destruct (rollback_only_the_last the_router ("001_a" ++ str1 (chr 10))
                "001_a" state1 Hlast) as [_ Hsame].
    destruct Hsame as (_ & Hfs & Hres); [vm_compute; reflexivity |].
    split; [exact Hfs |].
    assert (Hok : fst (rollback the_router ("001_a" ++ str1 (chr 10)) state1)
                  = Ok tt) by (vm_compute; reflexivity).
    rewrite Hok in Hres. rewrite Hres. vm_compute. reflexivity.
Defined.

(** The theorem of C9 on the empty ledger of [state0]. *)
Lemma rollback_on_empty_ledger_witness :
  ledger (database state0) = [] /\
  rollback the_router "001_a" state0 =
    (Raised (RuntimeError "No migrations are found."), state0).
Proof.
  split; [reflexivity |].
  apply (rollback_on_empty_ledger the_router "001_a" state0). reflexivity.
Defined.

(** The theorem of C5 on [003_c], whose forward procedure creates the
    table [c] and enqueues a statement that the database refuses: run in fake
    mode on a Migrator whose queue holds a statement, it returns, the
    registry holds [c], and the database is sent the insertion of the row
    when [force] is set and nothing when it is not. *)
Lemma fake_run_one_sends_nothing_witness :
  (exists m' s',
     run_one the_router "003_c" true false true (busy_migrator, state3)
       = (Ok tt, (m', s')) /\
     orm m' = ["c"] /\
     schema (database s') = schema (database state3) /\
     fs s' = fs state3 /\
     ledger (database s') = ["003_c"] /\
     sent s' = [LedgerInsert "003_c"]) /\
  (exists m' s',
     run_one the_router "003_c" true false false (busy_migrator, state3)
       = (Ok tt, (m', s')) /\
     orm m' = ["c"] /\
     schema (database s') = schema (database state3) /\
     fs s' = fs state3 /\
     ledger (database s') = [] /\
     sent s' = []).
Proof.
  assert (Hread : read the_router "003_c" state3 =
                  (Ok (proc "migrate" [Call (create_table "c");
                                       Call (sql "FAIL")],
                       proc "rollback" [Execute "FAIL"]), state3))
    by (vm_compute; reflexivity).
  split.
  - destruct (fake_run_one_sends_nothing the_router "003_c" false true
                busy_migrator state3) as [_ Hreturns].
    apply (Hreturns _ _ ["c"] Hread); reflexivity.
  - destruct (fake_run_one_sends_nothing the_router "003_c" false false
                busy_migrator state3) as [_ Hreturns].
    apply (Hreturns _ _ ["c"] Hread); reflexivity.
Defined.

(** The theorem of C10 on a Migrator whose queue holds a statement: the fake
    run of [001_a] empties the queue and declares the table [a]. *)
Lemma fake_run_one_leaves_queue_empty_witness :
  run_one the_router "001_a" true false false (busy_migrator, state0) =
    (Ok tt, ({| orm := ["a"]; ops := [] |}, state0)) /\
  ops {| orm := ["a"]; ops := [] |} = [] /\
  exists migrate rollback,
    read the_router "001_a" state0 = (Ok (migrate, rollback), state0) /\
    registry_after (body migrate true) (orm busy_migrator)
      = Some (orm {| orm := ["a"]; ops := [] |}).
Proof.
  assert (Hrun :
    run_one the_router "001_a" true false false (busy_migrator, state0) =
      (Ok tt, ({| orm := ["a"]; ops := [] |}, state0)))
    by (vm_compute; reflexivity).
  split; [exact Hrun |].
  exact (fake_run_one_leaves_queue_empty the_router "001_a" false false
           busy_migrator _ state0 state0 Hrun).
Defined.

(** ** A script without [rollback], read from a file and from a module *)

(** C8 on the code. [002_b] defines [migrate] alone, and is the last
    migration applied. [read] gives [VOID] for its [rollback], from the
    file as from the module; rolling [002_b] back calls [VOID] with the
    keyword [fake], which it does not take: [rollback] raises [TypeError],
    the ledger keeps the row and the failure is logged. *)
Theorem rollback_of_a_missing_procedure_raises :
  (forall r, r = the_router \/ r = the_module_router ->
     (exists migrate, read r "002_b" state2 = (Ok (migrate, VOID), state2)) /\
     fst (rollback r "002_b" state2) = Raised VOID_TypeError /\
     ledger (database (snd (rollback r "002_b" state2)))
       = ["001_a"; "002_b"] /\
     last (log (snd (rollback r "002_b" state2)))
       = Some (EXCEPTION, "Rollback failed: 002_b")) /\
  (forall fake stub (m : Migrator) (s : state),
     call VOID fake stub (m, s) = (Raised VOID_TypeError, (m, s))).
Proof.
  split.
  - intros r [-> | ->].
    + split; [eexists; vm_compute; reflexivity |].
      vm_compute. repeat split.
    + split; [eexists; vm_compute; reflexivity |].
      vm_compute. repeat split.
  - intros fake stub m s. apply call_VOID.
Qed.

(** ** [merge] on the example *)

Lemma listing_of_state2 :
  listing "migrations" state2 = ["001_a.py"; "002_b.py"].
Proof. vm_compute. reflexivity. Qed.

Lemma plain_names_state2 : plain_names "migrations" state2.
Proof.
  intros f Hin _. rewrite listing_of_state2 in Hin.
  apply elem_of_cons in Hin as [-> | Hin]; [vm_compute; reflexivity |].
  apply list_elem_of_singleton in Hin as ->. vm_compute. reflexivity.
Qed.

(** The theorem of C7 on the example: with [001_a] and [002_b] applied,
    [merge('initial')] leaves the one row [001_initial], the one script
    [001_initial.py] and an untouched schema; with nothing applied there is
    nothing to merge, and [merge] logs the error and changes nothing else but
    the router's cache. *)
Lemma merge_leaves_one_migration_witness :
  (exists s',
     merge the_router "initial" state2 = (Ok tt, s') /\
     ledger (database s') = ["001_initial"] /\
     schema (database s') = [] /\
     sent s' = [LedgerClear; LedgerInsert "001_initial"] /\
     directory "migrations" s' !! "001_initial.py"
       = Some (merged_script "initial" "create b"
                 {| orm := ["b"]; ops := [] |}) /\
     directory "migrations" s' !! "001_a.py" = None /\
     directory "migrations" s' !! "002_b.py" = None) /\
  merge the_router "initial" state0 =
    (Ok tt,
     set_log [(ERROR, "Can't merge migrations")]
       (set_cache (Some new_migrator) state0)).
Proof.
  split.
  - destruct (merge_leaves_one_migration "migrations" "initial" state2 _ _
                migrator_of_state2) as [_ Hmerge].
    destruct (Hmerge "create b" (proc "migrate" []) [])
      as (s' & Hrun & Hl & Hsch & Hsent & Hdir).
    + vm_compute. reflexivity.
    + exact plain_names_state2.
    + reflexivity.
    + reflexivity.
    + reflexivity.
    + reflexivity.
    + exists s'. split; [exact Hrun |]. split; [exact Hl |].
      split; [exact Hsch |]. split; [exact Hsent |].
      rewrite !Hdir. repeat split.
  - destruct (merge_leaves_one_migration "migrations" "initial" state0 _ _
                migrator_of_state0) as [Hnone _].
    destruct Hnone as (Hrun & _); [vm_compute; reflexivity |].
    exact Hrun.
Defined.

(** C7 as the spec has it fails on two kinds of names. With [001_a] and
    [002_b] applied, [merge('tg_bot')] clears the ledger, removes both
    scripts and writes [001_tg_bot.py]; [read] then looks for a name that
    ends in [tg_bot] in the directory of the package, which has no such
    script, and [merge] raises with no row in the ledger. And beside a file
    named [010_z.py] with a newline after it, which [todo] lists as [010_z.],
    [merge] clears the ledger, removes [001_a.py] and raises on the removal
    of [010_z..py]: no row, and the file is still there. *)
Lemma merge_can_leave_no_row :
  (fst (merge the_router "tg_bot" state2)
     = Raised (FileNotFoundError "tg_bot/migrations" "001_tg_bot.py") /\
   ledger (database (snd (merge the_router "tg_bot" state2))) = [] /\
   sent (snd (merge the_router "tg_bot" state2)) = [LedgerClear] /\
   listing "migrations" (snd (merge the_router "tg_bot" state2))
     = ["001_tg_bot.py"]) /\
  (fst (merge the_router "initial" state_newline)
     = Raised (FileNotFoundError "migrations" "010_z..py") /\
   ledger (database (snd (merge the_router "initial" state_newline))) = [] /\
   sent (snd (merge the_router "initial" state_newline)) = [LedgerClear] /\
   listing "migrations" (snd (merge the_router "initial" state_newline))
     = ["010_z.py" ++ str1 (chr 10)]).
Proof. vm_compute. repeat split. Qed.

(** ** The order of the changes of one table *)

(** A list that the test accepts has six entries, the last three being the
    ones that the test names. *)
Lemma test_auto_shape (changes : list string) :
  test_auto_asserts changes ->
  exists c0 c1 c2,
    changes =
      [c0; c1; c2;
       "migrator.drop_not_null('person', 'last_name')";
       "migrator.drop_index('person', 'last_name')";
       "migrator.add_index('person', 'last_name', unique=True)"] /\
    contains "on_delete='CASCADE'" c0 = true /\
    contains "backref='persons'" c0 = true.
Proof.
  intros (Hlen & (first & H0 & Hc1 & Hc2) & H3 & H2 & H1).
  destruct changes as [|c0 [|c1 [|c2 [|c3 [|c4 [|c5 [|c6 rest]]]]]]];
    try discriminate Hlen.
  vm_compute in H0, H3, H2, H1.
  injection H0 as ->. injection H3 as ->. injection H2 as ->.
  injection H1 as ->.
  exists first, c1, c2. repeat split; assumption.
Qed.

(** No list that the test accepts is in the order of section 4.2: in what
    the test asserts the drop of not-null stands before the drop of the
    index. What [diff_one] returns on other models, and where it puts the
    other kinds of change, the sources do not tell. *)
Lemma test_auto_contradicts_contract (changes : list string) :
  test_auto_asserts changes -> ~ follows_contract changes.
Proof.
  intros Hok Hsorted.
  destruct (test_auto_shape changes Hok) as (c0 & c1 & c2 & -> & _).
  unfold follows_contract in Hsorted.
  change [c0; c1; c2;
          "migrator.drop_not_null('person', 'last_name')";
          "migrator.drop_index('person', 'last_name')";
          "migrator.add_index('person', 'last_name', unique=True)"]
    with ([c0; c1; c2] ++
          ["migrator.drop_not_null('person', 'last_name')";
           "migrator.drop_index('person', 'last_name')";
           "migrator.add_index('person', 'last_name', unique=True)"])%list
    in Hsorted.
  rewrite omap_app, map_app in Hsorted.
  apply StronglySorted_app_1_r in Hsorted.
  vm_compute in Hsorted.
  apply StronglySorted_inv in Hsorted as [_ Hall].
  apply Forall_inv in Hall. lia.
Qed.

(** ** The further properties on the example *)

(** [compile] and [todo] on the two scripts of the example: the new script
    is [003_x], and [todo] lists the three names. *)
Lemma compiled_script_is_listed_witness :
  exists s',
    compile the_router "x" "m" "r" None state2 = (Ok "003_x", s') /\
    exists names,
      todo the_router s' = (Ok names, s') /\
      forall n, n ∈ names <-> n = "003_x" \/ n ∈ ["001_a"; "002_b"].
Proof.
  destruct (compile the_router "x" "m" "r" None state2) as [res s'] eqn:Hc.
  assert (Hres : res = Ok "003_x").
  { change res with (fst (res, s')). rewrite <- Hc. vm_compute. reflexivity. }
  subst res. exists s'. split; [reflexivity |].
  destruct (compiled_script_is_listed "migrations" "x" "m" "r" state2 s'
              "003_x" Hc) as (names & Htodo & Hnames).
  - vm_compute. lia.
  - discriminate.
  - reflexivity.
  - exists names. split; [exact Htodo |].
    assert (Hold : script_names "migrations" state2 = ["001_a"; "002_b"])
      by (vm_compute; reflexivity).
    rewrite Hold in Hnames. exact Hnames.
Defined.

(** [merge] on the module router of the example, with both migrations
    applied. *)
Lemma module_router_merge_clears_the_ledger_witness :
  exists s',
    merge the_module_router "initial" state2
      = (Raised NotImplementedError, s') /\
    ledger (database s') = [] /\
    schema (database s') = schema (database state2) /\
    sent s' = [LedgerClear].
Proof.
  assert (Hm : migrator the_module_router state2 =
               (Ok {| orm := ["b"]; ops := [] |},
                set_cache (Some {| orm := ["b"]; ops := [] |}) state2))
    by (vm_compute; reflexivity).
  apply (module_router_merge_clears_the_ledger _ "initial" "create b"
           state2 _ _ Hm).
  vm_compute. reflexivity.
Defined.

(** A real run of [001_a] on a Migrator whose queue holds a statement: the
    statement is sent before the one of the migration. *)
Lemma real_run_one_sends_in_order_witness :
  exists m' s',
    run_one the_router "001_a" false false false (busy_migrator, state0)
      = (Ok tt, (m', s')) /\
    ops m' = [] /\
    sent s' = [Query "PENDING"; Query "CREATE TABLE a"; LedgerInsert "001_a"] /\
    ledger (database s') = ["001_a"].
Proof.
  destruct (run_one the_router "001_a" false false false
              (busy_migrator, state0)) as [res [m' s']] eqn:Hrun.
  assert (Hres : res = Ok tt).
  { change res with (fst (res, (m', s'))). rewrite <- Hrun.
    vm_compute. reflexivity. }
  subst res. exists m', s'. split; [reflexivity |].
  destruct (real_run_one_sends_in_order the_router "001_a" false false
              busy_migrator m' state0 s' Hrun)
    as (migrate & rollback & Hread & Hrest).
  assert (Hmig : migrate = proc "migrate" [Call (create_table "a")]).
  { assert (Hr : read the_router "001_a" state0 =
                 (Ok (proc "migrate" [Call (create_table "a")],
                      proc "rollback" [Call (drop_table "a")]), state0))
      by (vm_compute; reflexivity).
    rewrite Hr in Hread. injection Hread as <- _. reflexivity. }
  subst migrate. cbv zeta in Hrest.
  destruct Hrest as (_ & _ & Hops & Hsent & Hl & _).
  split; [exact Hops |]. split; [exact Hsent | exact Hl].
Defined.

(** [run] on the example, and [run] again. *)
Lemma run_leaves_nothing_pending_witness :
  exists s',
    run the_router None false state0 = (Ok ["001_a"; "002_b"], s') /\
    diff the_router s' = (Ok [], s') /\
    fst (run the_router None false s') = Ok [].
Proof.
  destruct (run the_router None false state0) as [res s'] eqn:Hrun.
  assert (Hres : res = Ok ["001_a"; "002_b"]).
  { change res with (fst (res, s')). rewrite <- Hrun. vm_compute. reflexivity. }
  subst res. exists s'. split; [reflexivity |].
  destruct (run_leaves_nothing_pending "migrations" false state0 s' _ Hrun)
    as [Hdiff Hagain].
  split; [exact Hdiff |]. change the_router with (Router "migrations").
  rewrite Hagain. reflexivity.
Defined.

(** [rollback] of [001_a] on the example: it is pending again. *)
Lemma rollback_makes_it_pending_again_witness :
  exists s',
    rollback the_router "001_a" state1 = (Ok tt, s') /\
    ledger (database s') = [] /\
    exists pending,
      diff the_router s' = (Ok pending, s') /\ "001_a" ∈ pending.
Proof.
  destruct (rollback the_router "001_a" state1) as [res s'] eqn:Hrun.
  assert (Hres : res = Ok tt).
  { change res with (fst (res, s')). rewrite <- Hrun. vm_compute. reflexivity. }
  subst res. exists s'. split; [reflexivity |].
  destruct (rollback_makes_it_pending_again "migrations" "001_a" state1 s' Hrun)
    as (_ & Hl & _ & Hdiff).
  split; [rewrite Hl; reflexivity |].
  apply Hdiff. vm_compute.
  apply list_elem_of_here.
Defined.

(** [create] on the example, with both migrations applied: without [auto]
    it writes [003_new.py]; given the one model that the registry holds, it
    finds no change and writes nothing. *)
Lemma create_writes_one_script_or_none_witness :
  (exists s',
     create table_name [] the_router "new" NoAuto state2
       = (Ok (Some "003_new"), s') /\
     exists migrate rollback,
       directory "migrations" s' =
         <["003_new.py" := MIGRATE_TEMPLATE migrate rollback "003_new.py"]>
           (directory "migrations" state2)) /\
  (exists s',
     create table_name [] the_router "new" (@Models tables ["b"]) state2
       = (Ok None, s') /\
     same_files state2 s').
Proof.
  split.
  - destruct (create table_name [] the_router "new" NoAuto state2)
      as [res s'] eqn:Hrun.
    assert (Hres : res = Ok (Some "003_new")).
    { change res with (fst (res, s')). rewrite <- Hrun.
      vm_compute. reflexivity. }
    subst res. exists s'. split; [reflexivity |].
    destruct (create_writes_one_script_or_none table_name [] "migrations"
                "new" NoAuto state2 s' _ Hrun)
      as (_ & migrate & rollback & Hdir & _).
    exists migrate, rollback. exact Hdir.
  - destruct (create table_name [] the_router "new" (@Models tables ["b"]) state2)
      as [res s'] eqn:Hrun.
    assert (Hres : res = Ok None).
    { change res with (fst (res, s')). rewrite <- Hrun.
      vm_compute. reflexivity. }
    subst res. exists s'. split; [reflexivity |].
    exact (create_writes_one_script_or_none table_name [] "migrations"
             "new" (@Models tables ["b"]) state2 s' None Hrun).
Defined.

(** The script [001_x_tg_bot] is in the directory of the router, and is
    looked for in the package, which has none. *)
Lemma package_scripts_are_read_from_the_package_witness :
  is_Some (directory "migrations" state_tg_bot !! "001_x_tg_bot.py") /\
  run_one the_router "001_x_tg_bot" false false false
    (new_migrator, state_tg_bot) =
    (Raised (FileNotFoundError "tg_bot/migrations" "001_x_tg_bot.py"),
     (new_migrator,
      set_log [(EXCEPTION, "Migration failed: 001_x_tg_bot")] state_tg_bot)).
Proof.
  split; [vm_compute; eauto |].
  destruct (package_scripts_are_read_from_the_package "migrations"
              "001_x_tg_bot" false false false new_migrator state_tg_bot)
    as [_ Hrun]; [reflexivity |].
  apply Hrun. vm_compute. reflexivity.
Defined.

(** The thousandth script of a directory of 999. *)
Lemma compile_past_999_is_not_listed_witness :
  length (script_names "migrations" state_many) = 999 /\
  exists s',
    compile the_router "x" "m" "r" None state_many = (Ok "1000_x", s') /\
    re_match filemask "1000_x.py" = false /\
    length (script_names "migrations" s') = 999.
Proof.
  assert (Hlen : length (script_names "migrations" state_many) = 999)
    by (vm_compute; reflexivity).
  split; [exact Hlen |].
  destruct (compile_past_999_is_not_listed "migrations" "x" "m" "r" state_many)
    as (new & s' & Hc & _ & Hno & _ & Hlen').
  - rewrite Hlen. lia.
  - assert (Hnew : new = "1000_x").
    { assert (Hfst : fst (compile the_router "x" "m" "r" None state_many)
                     = Ok "1000_x") by (vm_compute; reflexivity).
      change the_router with (Router "migrations") in Hfst.
      rewrite Hc in Hfst. injection Hfst as ->. reflexivity. }
    subst new. exists s'. split; [exact Hc |]. split; [exact Hno |].
    rewrite Hlen'. exact Hlen.
Defined.

(** [create('new')] on the two scripts of the example: [003_new] is listed
    at once. *)
Lemma create_is_listed_by_todo_witness :
  exists s' names,
    create table_name [] the_router "new" NoAuto state2
      = (Ok (Some "003_new"), s') /\
    todo the_router s' = (Ok names, s') /\
    "003_new" ∈ names /\ "001_a" ∈ names /\ "002_b" ∈ names.
Proof.
  assert (Hlen : length (script_names "migrations" state2) = 2)
    by (vm_compute; reflexivity).
  destruct (create_is_listed_by_todo table_name [] "migrations" "new" state2)
    as (s' & names & Hc & Htodo & Hnew & Hold).
  - rewrite Hlen. lia.
  - discriminate.
  - reflexivity.
  - rewrite Hlen in Hc, Hnew. exists s', names.
    split; [exact Hc |]. split; [exact Htodo |]. split; [exact Hnew |].
    split; apply Hold; vm_compute.
    + apply list_elem_of_here.
    + apply list_elem_of_further, list_elem_of_here.
Defined.

(** [run] to a target that names no script: both migrations of the example
    are applied, as without a target. *)
Lemma run_ignores_a_target_that_is_not_pending_witness :
  ("009_z" ∉ script_names "migrations" state0) /\
  run the_router (Some "009_z") false state0
    = run the_router None false state0 /\
  fst (run the_router (Some "009_z") false state0) = Ok ["001_a"; "002_b"].
Proof.
  assert (Hnames : script_names "migrations" state0 = ["001_a"; "002_b"])
    by (vm_compute; reflexivity).
  assert (Hout : "009_z" ∉ script_names "migrations" state0).
  { rewrite Hnames. apply not_elem_of_cons. split; [discriminate |].
    apply not_elem_of_cons. split; [discriminate |]. apply not_elem_of_nil. }
  split; [exact Hout |].
  pose proof (run_ignores_a_target_that_is_not_pending "migrations" "009_z"
                false state0 (or_intror (or_introl Hout))) as Hrun.
  split; [exact Hrun |].
  change the_router with (Router "migrations"). rewrite Hrun.
  vm_compute. reflexivity.
Defined.
